(** * videojs-event-tracking: pause tracker and performance aggregator

    A shallow embedding of [src/tracking/pause.js] (the [PauseTracking]
    plugin) and of the [PerformanceTracking] plugin that follows it in the
    same source file, together with the properties of the design document
    that concern them.

    Conventions of the embedding.
    - The closure variables of a plugin ([let pauseTime = 0; ...]) become the
      fields of a record; a handler registered with [player.on] becomes a
      function from the record to the new record and the list of effects it
      performed, in program order.
    - [Date.now()] is an input: every handler receives the reading of the
      clock (integer milliseconds) under which it runs.
    - The host's timer table ([setTimeout] / [clearTimeout]) is a finite map
      from timer handles to due times.  Handles are positive integers, as the
      HTML standard requires, hence always truthy.
    - JavaScript numbers that hold times in seconds are exact rationals; the
      rounding error of IEEE arithmetic is not modelled. *)

From Stdlib Require Import ZArith QArith Qround List String Lia Lqa.
From stdpp Require Import base option list gmap strings.

Local Open Scope Z_scope.

(* ===================================================================== *)
(** * The pause tracker ([PauseTracking]) *)
(* ===================================================================== *)

Module PauseTracking.

(** What [isSeeking] can observe of the player: each property is either not
    a function ([None]) or a function whose call returns a truthy
    ([Some true]) or falsy ([Some false]) value. *)
Record Player := {
  seeking : option bool;
  scrubbing : option bool
}.

Definition TimerId := positive.

(** The closure variables of [PauseTracking], followed by the part of the
    host the plugin acts on: the timer table. *)
Record Tracker := {
  pauseTime : Q;
  pauseCount : Z;
  initPauseTime : option Z;
  timer : option TimerId;
  locked : bool;
  next_timer : TimerId;          (* the handle the next [setTimeout] returns *)
  pending : gmap TimerId Z       (* outstanding timers and their due times *)
}.

(** The payload [{ pauseTime, pauseCount }] of the derived events. *)
Record Payload := {
  data_pauseTime : Q;
  data_pauseCount : Z
}.

(** [player.trigger(name, data)] *)
Inductive Triggered :=
| tracking_pause (data : Payload)
| tracking_unpause (data : Payload).

(** The state right after [PauseTracking] has run. *)
Definition init : Tracker := {|
  pauseTime := 0%Q;
  pauseCount := 0;
  initPauseTime := None;
  timer := None;
  locked := false;
  next_timer := 1%positive;
  pending := ∅
|}.

(** [setTimeout(callback, delay)]: every timer of the plugin carries the same
    callback, so the table only records when it is due. *)
Definition setTimeout (now delay : Z) (s : Tracker) : TimerId * Tracker :=
  (next_timer s,
   {| pauseTime := pauseTime s;
      pauseCount := pauseCount s;
      initPauseTime := initPauseTime s;
      timer := timer s;
      locked := locked s;
      next_timer := Pos.succ (next_timer s);
      pending := <[next_timer s := now + delay]> (pending s) |}).

(** [clearTimeout(id)]: a handle that is not outstanding is ignored. *)
Definition clearTimeout (id : TimerId) (s : Tracker) : Tracker :=
  {| pauseTime := pauseTime s;
     pauseCount := pauseCount s;
     initPauseTime := initPauseTime s;
     timer := timer s;
     locked := locked s;
     next_timer := next_timer s;
     pending := delete id (pending s) |}.

(** [const reset = function (e) { ... }] *)
Definition reset (s : Tracker) : Tracker :=
  let s1 := match timer s with
            | Some id => clearTimeout id s
            | None => s
            end in
  {| pauseTime := 0%Q;
     pauseCount := 0;
     initPauseTime := None;
     timer := timer s1;
     locked := false;
     next_timer := next_timer s1;
     pending := pending s1 |}.

(** [const isSeeking = function () { ... }] *)
Definition isSeeking (player : Player) : bool :=
  match seeking player with Some b => b | None => false end
  || match scrubbing player with Some b => b | None => false end.

(** [player.on("play", function () { ... })] *)
Definition on_play (now : Z) (s : Tracker) : Tracker * list Triggered :=
  match initPauseTime s with
  | Some t0 =>
      let pauseTime' := (pauseTime s + inject_Z (now - t0) / inject_Z 1000)%Q in
      ({| pauseTime := pauseTime';
          pauseCount := pauseCount s;
          initPauseTime := None;
          timer := timer s;
          locked := locked s;
          next_timer := next_timer s;
          pending := pending s |},
       [tracking_unpause {| data_pauseTime := pauseTime';
                            data_pauseCount := pauseCount s |}])
  | None => (s, [])
  end.

(** [player.on("pause", function () { ... })] *)
Definition on_pause (now : Z) (player : Player) (s : Tracker)
  : Tracker * list Triggered :=
  if isSeeking player || locked s then (s, [])
  else
    let '(id, s1) := setTimeout now 300 s in
    ({| pauseTime := pauseTime s1;
        pauseCount := pauseCount s1;
        initPauseTime := initPauseTime s1;
        timer := Some id;
        locked := locked s1;
        next_timer := next_timer s1;
        pending := pending s1 |}, []).

(** The callback handed to [setTimeout]. *)
Definition timer_callback (now : Z) (s : Tracker) : Tracker * list Triggered :=
  let pauseCount' := pauseCount s + 1 in
  ({| pauseTime := pauseTime s;
      pauseCount := pauseCount';
      initPauseTime := Some now;
      timer := timer s;
      locked := locked s;
      next_timer := next_timer s;
      pending := pending s |},
   [tracking_pause {| data_pauseTime := pauseTime s;
                      data_pauseCount := pauseCount' |}]).

(** The host runs the callback of timer [id]: only an outstanding timer
    whose delay has elapsed can run, and running it retires it. *)
Definition fire (now : Z) (id : TimerId) (s : Tracker)
  : Tracker * list Triggered :=
  match pending s !! id with
  | Some due =>
      if due <=? now then timer_callback now (clearTimeout id s) else (s, [])
  | None => (s, [])
  end.

(** What can happen to the tracker: the host events it subscribes to, and
    the host running one of its timers. *)
Inductive Input :=
| dispose
| loadstart
| ended
| play
| pause (player : Player)
| timeout (id : TimerId).

Definition step (now : Z) (i : Input) (s : Tracker) : Tracker * list Triggered :=
  match i with
  | dispose | loadstart | ended => (reset s, [])
  | play => on_play now s
  | pause player => on_pause now player s
  | timeout id => fire now id s
  end.

(** A trace lists the inputs with the clock reading at each. *)
Fixpoint run (tr : list (Z * Input)) (s : Tracker) : Tracker * list Triggered :=
  match tr with
  | [] => (s, [])
  | (now, i) :: tr' =>
      let '(s1, out1) := step now i s in
      let '(s2, out2) := run tr' s1 in
      (s2, out1 ++ out2)
  end.

Definition reachable (s : Tracker) : Prop :=
  ∃ tr, (run tr init).1 = s.

(** Handles are handed out in increasing order, so an outstanding timer and
    the stored handle are both older than the next handle. *)
Definition wf (s : Tracker) : Prop :=
  (∀ id due, pending s !! id = Some due → (id < next_timer s)%positive) ∧
  (∀ id, timer s = Some id → (id < next_timer s)%positive).

Definition is_tracking_pause (t : Triggered) : bool :=
  match t with tracking_pause _ => true | tracking_unpause _ => false end.

(** A player that is neither seeking nor scrubbing. *)
Definition idle_player : Player :=
  {| seeking := Some false; scrubbing := Some false |}.

(** A player in the middle of a seek. *)
Definition seeking_player : Player :=
  {| seeking := Some true; scrubbing := Some false |}.


(** The debounce-suppression property as the design document words it: a raw
    pause at [t0] that passes the guard, a raw play at [t1] inside the delay,
    and the pause's timer coming due at [t2] produce no derived event and
    leave [pauseCount] as it was. *)
Definition debounce_suppressed (s : Tracker) (p : Player) (t0 t1 t2 : Z) : Prop :=
  let r := run [(t0, pause p); (t1, play); (t2, timeout (next_timer s))] s in
  r.2 = [] ∧ pauseCount r.1 = pauseCount s.

(** The pauses completed since the last reset, as the derived events show
    them: a pause is confirmed when a [tracking:pause] is emitted, and it is
    completed, with the seconds elapsed since, by the next raw play.  [since]
    is the time of the confirmation not yet followed by a play, [acc] the
    durations completed so far, oldest first. *)
Fixpoint completed_pauses (tr : list (Z * Input)) (s : Tracker)
    (since : option Z) (acc : list Q) : list Q :=
  match tr with
  | [] => acc
  | (now, i) :: tr' =>
      let r := step now i s in
      match i with
      | dispose | loadstart | ended => completed_pauses tr' r.1 None []
      | play =>
          completed_pauses tr' r.1 None
            match since with
            | Some t0 => acc ++ [(inject_Z (now - t0) / inject_Z 1000)%Q]
            | None => acc
            end
      | _ =>
          completed_pauses tr' r.1
            (if existsb is_tracking_pause r.2 then Some now else since) acc
      end
  end.

(** The sum of a list of durations, added in order as [+=] adds them. *)
Definition total (l : list Q) : Q := fold_left Qplus l 0%Q.

(** The single-timer invariant as the design document words it. *)
Definition single_pending_timer : Prop :=
  ∀ s, reachable s → (size (pending s) ≤ 1)%nat.

(** The inputs whose handler is [reset]. *)
Definition is_reset (i : Input) : bool :=
  match i with
  | dispose | loadstart | ended => true
  | _ => false
  end.

(** A trace whose clock readings never go back, [T] being the reading before
    its first input. *)
Fixpoint chronological (T : Z) (tr : list (Z * Input)) : bool :=
  match tr with
  | [] => true
  | (now, _) :: tr' => (T <=? now) && chronological now tr'
  end.

(** The [pauseCount] entries of the [tracking:pause] payloads in a list of
    derived events, in order. *)
Definition confirmations (out : list Triggered) : list Z :=
  omap (λ t, match t with
             | tracking_pause d => Some (data_pauseCount d)
             | tracking_unpause _ => None
             end) out.

(** What a run leaves behind, in order: the teardowns ([dispose],
    [loadstart], [ended]) it went through and the derived events it
    emitted. *)
Inductive Entry :=
| teardown
| derived (t : Triggered).

Fixpoint history (tr : list (Z * Input)) (s : Tracker) : list Entry :=
  match tr with
  | [] => []
  | (now, i) :: tr' =>
      let r := step now i s in
      (if is_reset i then [teardown] else [])
        ++ map derived r.2 ++ history tr' r.1
  end.

(** The derived events of a history. *)
Definition derived_events (h : list Entry) : list Triggered :=
  omap (λ e, match e with derived t => Some t | teardown => None end) h.

(** Whether, in a history, every [tracking:unpause] comes right after a
    [tracking:pause] that carries the same [pauseCount], with no teardown
    and no other event between the two; [prev] is the payload of the entry
    before the history when that entry was a [tracking:pause]. *)
Fixpoint paired (prev : option Payload) (h : list Entry) : bool :=
  match h with
  | [] => true
  | teardown :: h' => paired None h'
  | derived (tracking_pause d) :: h' => paired (Some d) h'
  | derived (tracking_unpause d) :: h' =>
      match prev with
      | Some d' => (data_pauseCount d' =? data_pauseCount d) && paired None h'
      | None => false
      end
  end.

End PauseTracking.

(* ===================================================================== *)
(** * The performance aggregator ([PerformanceTracking]) *)
(* ===================================================================== *)

Module PerformanceTracking.

(** ** JavaScript values *)

(** A JavaScript number: a finite value, or one of the three special ones
    the player can report as a duration. *)
Inductive number :=
| Fin (q : Q)
| NaN
| PosInfinity
| NegInfinity.

(** The values a configuration entry or a snapshot field can hold.  A
    function is known by its identity only; [VObject] stands for any other
    object. *)
Inductive value :=
| VUndefined
| VNull
| VBoolean (b : bool)
| VNumber (n : number)
| VString (s : string)
| VFunction (f : nat)
| VObject.

Definition typeof (v : value) : string :=
  match v with
  | VUndefined => "undefined"
  | VNull => "object"
  | VBoolean _ => "boolean"
  | VNumber _ => "number"
  | VString _ => "string"
  | VFunction _ => "function"
  | VObject => "object"
  end.

(** [+x.toFixed(0)] for a finite [x]: the nearest integer, a tie going away
    from zero ([-0] reads as [0], which [===] does not tell apart). *)
Definition toFixed0 (x : Q) : Z :=
  if Qle_bool 0 x then Qfloor (x + (1 # 2)) else - Qfloor (- x + (1 # 2)).

(** [+n.toFixed(0)] for any number: the special values print and parse back
    as themselves. *)
Definition number_toFixed0 (n : number) : number :=
  match n with
  | Fin q => Fin (inject_Z (toFixed0 q))
  | other => other
  end.

(** [+x.toFixed(3)] for a finite [x]. *)
Definition toFixed3 (x : Q) : Q :=
  (inject_Z (toFixed0 (x * inject_Z 1000)) / inject_Z 1000)%Q.

(** [n > 0] *)
Definition gt0 (n : number) : bool :=
  match n with
  | Fin q => negb (Qle_bool q 0)
  | PosInfinity => true
  | NaN | NegInfinity => false
  end.

Definition Qtrunc (x : Q) : Z :=
  if Qle_bool 0 x then Qfloor x else Qceiling x.

(** [a % b] for an integer [a]: the remainder of the division truncated
    towards zero, [NaN] for a zero or undefined divisor, [a] itself for an
    infinite one. *)
Definition rem (a : Z) (b : number) : number :=
  match b with
  | Fin q =>
      if Qeq_bool q 0 then NaN
      else Fin (inject_Z a - q * inject_Z (Qtrunc (inject_Z a / q)))%Q
  | NaN => NaN
  | PosInfinity | NegInfinity => Fin (inject_Z a)
  end.

(** [n === 0] *)
Definition is_zero (n : number) : bool :=
  match n with
  | Fin q => Qeq_bool q 0
  | _ => false
  end.

(** [l.indexOf(x)]: the first position of [x], or [-1]. *)
Fixpoint indexOf (x : Z) (l : list Z) : Z :=
  match l with
  | [] => -1
  | y :: l' =>
      if x =? y then 0
      else let i := indexOf x l' in if i <? 0 then -1 else i + 1
  end.

(** ** Configuration *)

(** The entries of the [config] object the plugin reads; an absent entry
    reads as [VUndefined]. *)
Module config.
Record t := {
  performance : value;
  triggerOnPause : value;
  triggerInterval : value
}.
End config.

(** The constants the constructor derives from [config]. *)
Record Options := {
  performance : value;           (* [config.performance], a function *)
  triggerOnPause : bool;
  triggerInterval : number
}.

(** The guard and the two defaults at the head of [PerformanceTracking]:
    [None] when the constructor returns before it registers anything. *)
Definition options (cfg : option config.t) : option Options :=
  match cfg with
  | None => None
  | Some c =>
      if negb (String.eqb (typeof (config.performance c)) "function") then None
      else
        Some {| performance := config.performance c;
                triggerOnPause :=
                  match config.triggerOnPause c with
                  | VBoolean b => b
                  | _ => true
                  end;
                triggerInterval :=
                  match config.triggerInterval c with
                  | VNumber n => n
                  | _ => Fin (inject_Z 10)
                  end |}
  end.

(** ** State and effects *)

(** The closure variables of an active aggregator, the number of
    identifiers drawn from [v4] so far, and whether its [beforeunload]
    listener is attached to the window. *)
Record State := {
  session : string;
  seekCount : Z;
  pauseTime : Q;
  pauseCount : Z;
  bufferCount : Z;
  totalDuration : number;
  watchedDuration : Z;
  bufferDuration : Q;
  initialLoadTime : Q;
  timestamps : list Z;
  v4_calls : nat;
  beforeunload_listener : bool
}.

(** The object literal [data] of [trigger], property by property in source
    order. *)
Definition Data := list (string * value).

Definition of_Z (z : Z) : value := VNumber (Fin (inject_Z z)).
Definition of_Q (q : Q) : value := VNumber (Fin q).

(** [f.call(thisArg, data)] *)
Record Call := {
  callee : value;
  this_arg : nat;
  argument : Data
}.

(** What the host delivers to the aggregator.  [timeupdate] carries what
    [player.currentTime()] returns, a finite number; [loadeddata] carries
    what [player.duration()] returns, which may be [NaN] or infinite.  The
    payloads of the derived events are typed by their producers'
    contracts: counts are integers, times are finite numbers of seconds. *)
Inductive Event :=
| beforeunload
| loadstart
| ended
| dispose
| timeupdate (currentTime : Q)
| loadeddata (duration : number)
| tracking_seek (seekCount : Z)
| tracking_pause (pauseTime : Q) (pauseCount : Z)
| tracking_unpause (pauseTime : Q) (pauseCount : Z)
| tracking_buffered (bufferCount : Z) (secondsToLoad : Q)
| tracking_firstplay (secondsToLoad : Q).

Section Plugin.

(** The identifiers [v4()] returns, in call order. *)
Variable v4 : nat → string.
(** The player the plugin is installed on ([const player = this]). *)
Variable player : nat.
(** [typeof window.addEventListener === 'function'] *)
Variable window_addEventListener : bool.
Variable opts : Options.

(** The closure variables as the constructor leaves them. *)
Definition init : State := {|
  session := v4 0;
  seekCount := 0;
  pauseTime := 0%Q;
  pauseCount := 0;
  bufferCount := 0;
  totalDuration := Fin 0%Q;
  watchedDuration := 0;
  bufferDuration := 0%Q;
  initialLoadTime := 0%Q;
  timestamps := [];
  v4_calls := 1;
  beforeunload_listener := window_addEventListener
|}.

(** [const reset = function() { ... }] *)
Definition reset (s : State) : State := {|
  session := v4 (v4_calls s);
  seekCount := 0;
  pauseTime := 0%Q;
  pauseCount := 0;
  bufferCount := 0;
  totalDuration := Fin 0%Q;
  watchedDuration := 0;
  bufferDuration := 0%Q;
  initialLoadTime := 0%Q;
  timestamps := [];
  v4_calls := S (v4_calls s);
  beforeunload_listener := beforeunload_listener s
|}.

Definition data (s : State) : Data :=
  [ ("session", VString (session s));
    ("pauseTime", of_Q (pauseTime s));
    ("pauseCount", of_Z (pauseCount s));
    ("seekCount", of_Z (seekCount s));
    ("bufferCount", of_Z (bufferCount s));
    ("totalDuration", VNumber (totalDuration s));
    ("watchedDuration", of_Z (watchedDuration s));
    ("bufferDuration", of_Q (bufferDuration s));
    ("initialLoadTime", of_Q (initialLoadTime s)) ]%string.

(** [const trigger = function() { ... }] *)
Definition trigger (s : State) : list Call :=
  [ {| callee := performance opts; this_arg := player; argument := data s |} ].

(** [const triggerAndReset = function() { trigger(); reset(); }] *)
Definition triggerAndReset (s : State) : State * list Call :=
  (reset s, trigger s).

(** The first [dispose] handler, registered only when the window can
    listen: it detaches [triggerAndReset] from [beforeunload]. *)
Definition removeEventListener (s : State) : State := {|
  session := session s;
  seekCount := seekCount s;
  pauseTime := pauseTime s;
  pauseCount := pauseCount s;
  bufferCount := bufferCount s;
  totalDuration := totalDuration s;
  watchedDuration := watchedDuration s;
  bufferDuration := bufferDuration s;
  initialLoadTime := initialLoadTime s;
  timestamps := timestamps s;
  v4_calls := v4_calls s;
  beforeunload_listener := false
|}.

(** [player.on('loadstart', function() { ... })] *)
Definition on_loadstart (s : State) : State * list Call :=
  let calls := if gt0 (totalDuration s) then trigger s else [] in
  (reset s, calls).

(** [player.on('timeupdate', function() { ... })] *)
Definition on_timeupdate (currentTime : Q) (s : State) : State * list Call :=
  let curTime := toFixed0 currentTime in
  if indexOf curTime (timestamps s) <? 0 then
    let timestamps' := timestamps s ++ [curTime] in
    let watchedDuration' := Z.of_nat (length timestamps') in
    let s' := {|
      session := session s;
      seekCount := seekCount s;
      pauseTime := pauseTime s;
      pauseCount := pauseCount s;
      bufferCount := bufferCount s;
      totalDuration := totalDuration s;
      watchedDuration := watchedDuration';
      bufferDuration := bufferDuration s;
      initialLoadTime := initialLoadTime s;
      timestamps := timestamps';
      v4_calls := v4_calls s;
      beforeunload_listener := beforeunload_listener s
    |} in
    if is_zero (rem watchedDuration' (triggerInterval opts))
    then (s', trigger s')
    else (s', [])
  else (s, []).

(** [player.on('loadeddata', function(e, data) { ... })] *)
Definition on_loadeddata (duration : number) (s : State) : State := {|
  session := session s;
  seekCount := seekCount s;
  pauseTime := pauseTime s;
  pauseCount := pauseCount s;
  bufferCount := bufferCount s;
  totalDuration := number_toFixed0 duration;
  watchedDuration := watchedDuration s;
  bufferDuration := bufferDuration s;
  initialLoadTime := initialLoadTime s;
  timestamps := timestamps s;
  v4_calls := v4_calls s;
  beforeunload_listener := beforeunload_listener s
|}.

(** [player.on('tracking:seek', function(e, data) { ... })] *)
Definition on_tracking_seek (data_seekCount : Z) (s : State) : State := {|
  session := session s;
  seekCount := data_seekCount;
  pauseTime := pauseTime s;
  pauseCount := pauseCount s;
  bufferCount := bufferCount s;
  totalDuration := totalDuration s;
  watchedDuration := watchedDuration s;
  bufferDuration := bufferDuration s;
  initialLoadTime := initialLoadTime s;
  timestamps := timestamps s;
  v4_calls := v4_calls s;
  beforeunload_listener := beforeunload_listener s
|}.

(** [player.on('tracking:pause', function(e, data) { ... })] *)
Definition on_tracking_pause (data_pauseCount : Z) (s : State)
  : State * list Call :=
  let s' := {|
    session := session s;
    seekCount := seekCount s;
    pauseTime := pauseTime s;
    pauseCount := data_pauseCount;
    bufferCount := bufferCount s;
    totalDuration := totalDuration s;
    watchedDuration := watchedDuration s;
    bufferDuration := bufferDuration s;
    initialLoadTime := initialLoadTime s;
    timestamps := timestamps s;
    v4_calls := v4_calls s;
    beforeunload_listener := beforeunload_listener s
  |} in
  if triggerOnPause opts then (s', trigger s') else (s', []).

(** [player.on('tracking:unpause', function(e, data) { ... })] *)
Definition on_tracking_unpause (data_pauseTime : Q) (data_pauseCount : Z)
    (s : State) : State := {|
  session := session s;
  seekCount := seekCount s;
  pauseTime := data_pauseTime;
  pauseCount := data_pauseCount;
  bufferCount := bufferCount s;
  totalDuration := totalDuration s;
  watchedDuration := watchedDuration s;
  bufferDuration := bufferDuration s;
  initialLoadTime := initialLoadTime s;
  timestamps := timestamps s;
  v4_calls := v4_calls s;
  beforeunload_listener := beforeunload_listener s
|}.

(** [player.on('tracking:buffered', function(e, data) { ... })] *)
Definition on_tracking_buffered (data_bufferCount : Z) (secondsToLoad : Q)
    (s : State) : State := {|
  session := session s;
  seekCount := seekCount s;
  pauseTime := pauseTime s;
  pauseCount := pauseCount s;
  bufferCount := data_bufferCount;
  totalDuration := totalDuration s;
  watchedDuration := watchedDuration s;
  bufferDuration := toFixed3 (bufferDuration s + secondsToLoad);
  initialLoadTime := initialLoadTime s;
  timestamps := timestamps s;
  v4_calls := v4_calls s;
  beforeunload_listener := beforeunload_listener s
|}.

(** [player.on('tracking:firstplay', function(e, data) { ... })] *)
Definition on_tracking_firstplay (secondsToLoad : Q) (s : State) : State := {|
  session := session s;
  seekCount := seekCount s;
  pauseTime := pauseTime s;
  pauseCount := pauseCount s;
  bufferCount := bufferCount s;
  totalDuration := totalDuration s;
  watchedDuration := watchedDuration s;
  bufferDuration := bufferDuration s;
  initialLoadTime := secondsToLoad;
  timestamps := timestamps s;
  v4_calls := v4_calls s;
  beforeunload_listener := beforeunload_listener s
|}.

(** The handlers an event reaches, in registration order. *)
Definition handle (e : Event) (s : State) : State * list Call :=
  match e with
  | beforeunload =>
      if beforeunload_listener s then triggerAndReset s else (s, [])
  | loadstart => on_loadstart s
  | ended => triggerAndReset s
  | dispose =>
      triggerAndReset
        (if window_addEventListener then removeEventListener s else s)
  | timeupdate currentTime => on_timeupdate currentTime s
  | loadeddata duration => (on_loadeddata duration s, [])
  | tracking_seek n => (on_tracking_seek n s, [])
  | tracking_pause _ n => on_tracking_pause n s
  | tracking_unpause t n => (on_tracking_unpause t n s, [])
  | tracking_buffered n t => (on_tracking_buffered n t s, [])
  | tracking_firstplay t => (on_tracking_firstplay t s, [])
  end.

Fixpoint run (evs : list Event) (s : State) : State * list Call :=
  match evs with
  | [] => (s, [])
  | e :: evs' =>
      let '(s1, calls1) := handle e s in
      let '(s2, calls2) := run evs' s1 in
      (s2, calls1 ++ calls2)
  end.

(** The states an event sequence can lead to from the constructor's. *)
Definition reachable (s : State) : Prop :=
  ∃ evs, (run evs init).1 = s.

(** The events whose handlers end the session: they call [reset]. *)
Definition is_terminal (e : Event) : bool :=
  match e with
  | beforeunload | loadstart | ended | dispose => true
  | _ => false
  end.

(** Whether the handlers that [e] reaches in state [s] call [reset]: the
    [beforeunload] listener may have been detached. *)
Definition resets (e : Event) (s : State) : bool :=
  match e with
  | beforeunload => beforeunload_listener s
  | _ => is_terminal e
  end.

(** The second-mark a [timeupdate] reports. *)
Definition mark (e : Event) : option Z :=
  match e with
  | timeupdate currentTime => Some (toFixed0 currentTime)
  | _ => None
  end.

(** The second-marks observed since the last reset, oldest first, when the
    events [evs] are delivered in state [s], [seen] being the marks observed
    before them. *)
Fixpoint observed (evs : list Event) (s : State) (seen : list Z) : list Z :=
  match evs with
  | [] => seen
  | e :: evs' =>
      observed evs' (handle e s).1
        (if resets e s then []
         else match mark e with
              | Some m => seen ++ [m]
              | None => seen
              end)
  end.

(** What links the closure variables to the marks [seen] since the last
    reset: [timestamps] holds each of them once, and [watchedDuration] is its
    length. *)
Definition consistent (s : State) (seen : list Z) : Prop :=
  watchedDuration s = Z.of_nat (length (timestamps s)) ∧
  NoDup (timestamps s) ∧
  ∀ m, m ∈ timestamps s ↔ m ∈ seen.

(** The initial-load-time property as the design document words it: once a
    [tracking:firstplay] has been handled, a later one in the same session
    leaves [initialLoadTime] as it is. *)
Definition first_writer_wins : Prop :=
  ∀ (s : State) (t1 t2 : Q),
    let s1 := (handle (tracking_firstplay t1) s).1 in
    initialLoadTime (handle (tracking_firstplay t2) s1).1 = initialLoadTime s1.

End Plugin.

(** [PerformanceTracking.call(player, config)] on a page whose [v4] and
    window are as given: the installed aggregator, or [None] when the
    constructor returned at its guard and no handler exists. *)
Definition PerformanceTracking (v4 : nat → string) (window_addEventListener : bool)
    (cfg : option config.t) : option (Options * State) :=
  match options cfg with
  | Some o => Some (o, init v4 window_addEventListener)
  | None => None
  end.

(** An event delivered to the player reaches the aggregator's handlers only
    if the constructor installed them. *)
Definition deliver (v4 : nat → string) (player : nat) (window_addEventListener : bool)
    (evs : list Event) (a : option (Options * State))
  : option (Options * State) * list Call :=
  match a with
  | Some (o, s) =>
      let '(s', calls) := run v4 player window_addEventListener o evs s in
      (Some (o, s'), calls)
  | None => (None, [])
  end.


(** The number of distinct elements of a list of second-marks. *)
Definition distinct (l : list Z) : nat :=
  size (list_to_set l : gset Z).

(** The property names of the snapshot as the design document lists them. *)
Definition documented_fields : list string :=
  [ "sessionId"; "pauseTime"; "pauseCount"; "seekCount"; "bufferCount";
    "totalDuration"; "watchedDuration"; "bufferDuration";
    "initialLoadTime" ]%string.

(** The property names of the object literal in [trigger]. *)
Definition data_fields : list string :=
  [ "session"; "pauseTime"; "pauseCount"; "seekCount"; "bufferCount";
    "totalDuration"; "watchedDuration"; "bufferDuration";
    "initialLoadTime" ]%string.

(** The construction guard as the design document words it: a [performance]
    entry that is not a function, or a [triggerInterval] entry that is not a
    number, leaves the aggregator uninstalled. *)
Definition misconfiguration_deactivates : Prop :=
  ∀ (v4 : nat → string) (w : bool) (c : config.t),
    typeof (config.performance c) ≠ "function"%string ∨
    typeof (config.triggerInterval c) ≠ "number"%string →
    PerformanceTracking v4 w (Some c) = None.

(** A page to evaluate the plugin on: identifiers ["x"], ["xx"], ..., a
    window that can listen, player 1, and the configuration of the demo page
    without its [triggerInterval] entry. *)
Definition sample_v4 (n : nat) : string :=
  String.concat "" (replicate (S n) "x"%string).

Definition sample_config : config.t := {|
  config.performance := VFunction 0;
  config.triggerOnPause := VUndefined;
  config.triggerInterval := VUndefined
|}.

Definition sample_options : Options := {|
  performance := VFunction 0;
  triggerOnPause := true;
  triggerInterval := Fin (inject_Z 10)
|}.

Definition sample_init : State := init sample_v4 true.


End PerformanceTracking.

(* ===================================================================== *)
(** * Both plugins on one player *)
(* ===================================================================== *)

(** The two plugins share nothing but the player's event bus:
    [player.trigger(name, data)] runs, before it returns, the handlers that
    [player.on(name, ...)] registered.  So a derived event the tracker
    triggers reaches the aggregator's handler inside the tracker's own
    handler or timer callback.  [dispose], [loadstart] and [ended] reach
    handlers of both plugins; these act on disjoint variables and the
    tracker's emits nothing, so their order is immaterial. *)
Module Page.

Record State := {
  tracker : PauseTracking.Tracker;
  aggregator : PerformanceTracking.State
}.

(** What can happen on the page: the host events either plugin subscribes
    to, the host running one of the tracker's timers, and the derived events
    of the sibling plugins. *)
Inductive Input :=
| dispose
| loadstart
| ended
| play
| pause (player : PauseTracking.Player)
| timeout (id : PauseTracking.TimerId)
| beforeunload
| timeupdate (currentTime : Q)
| loadeddata (duration : PerformanceTracking.number)
| tracking_seek (seekCount : Z)
| tracking_buffered (bufferCount : Z) (secondsToLoad : Q)
| tracking_firstplay (secondsToLoad : Q).

(** The part of an input the tracker has a handler for. *)
Definition tracker_input (i : Input) : option PauseTracking.Input :=
  match i with
  | dispose => Some PauseTracking.dispose
  | loadstart => Some PauseTracking.loadstart
  | ended => Some PauseTracking.ended
  | play => Some PauseTracking.play
  | pause player => Some (PauseTracking.pause player)
  | timeout id => Some (PauseTracking.timeout id)
  | _ => None
  end.

(** The part of an input the aggregator has a handler for. *)
Definition aggregator_event (i : Input) : option PerformanceTracking.Event :=
  match i with
  | dispose => Some PerformanceTracking.dispose
  | loadstart => Some PerformanceTracking.loadstart
  | ended => Some PerformanceTracking.ended
  | beforeunload => Some PerformanceTracking.beforeunload
  | timeupdate currentTime => Some (PerformanceTracking.timeupdate currentTime)
  | loadeddata duration => Some (PerformanceTracking.loadeddata duration)
  | tracking_seek n => Some (PerformanceTracking.tracking_seek n)
  | tracking_buffered n t => Some (PerformanceTracking.tracking_buffered n t)
  | tracking_firstplay t => Some (PerformanceTracking.tracking_firstplay t)
  | play | pause _ | timeout _ => None
  end.

(** A derived event of the tracker as the aggregator's handler receives
    it. *)
Definition triggered (t : PauseTracking.Triggered) : PerformanceTracking.Event :=
  match t with
  | PauseTracking.tracking_pause d =>
      PerformanceTracking.tracking_pause
        (PauseTracking.data_pauseTime d) (PauseTracking.data_pauseCount d)
  | PauseTracking.tracking_unpause d =>
      PerformanceTracking.tracking_unpause
        (PauseTracking.data_pauseTime d) (PauseTracking.data_pauseCount d)
  end.

Section Plugins.

Variable v4 : nat → string.
Variable player : nat.
Variable window_addEventListener : bool.
Variable opts : PerformanceTracking.Options.

Definition init : State := {|
  tracker := PauseTracking.init;
  aggregator := PerformanceTracking.init v4 window_addEventListener
|}.

(** One input: the tracker's handler runs, what it triggers runs the
    aggregator's handlers, and so does the input itself when the aggregator
    subscribes to it. *)
Definition step (now : Z) (i : Input) (s : State)
  : State * list PerformanceTracking.Call :=
  let r :=
    match tracker_input i with
    | Some ti => PauseTracking.step now ti (tracker s)
    | None => (tracker s, [])
    end in
  let a :=
    PerformanceTracking.run v4 player window_addEventListener opts
      (map triggered r.2 ++ option_list (aggregator_event i)) (aggregator s) in
  ({| tracker := r.1; aggregator := a.1 |}, a.2).

Fixpoint run (tr : list (Z * Input)) (s : State)
  : State * list PerformanceTracking.Call :=
  match tr with
  | [] => (s, [])
  | (now, i) :: tr' =>
      let '(s1, calls1) := step now i s in
      let '(s2, calls2) := run tr' s1 in
      (s2, calls1 ++ calls2)
  end.

(** A trace during which the page is not unloaded. *)
Definition stays_loaded (tr : list (Z * Input)) : bool :=
  forallb (λ e, match e.2 with beforeunload => false | _ => true end) tr.

End Plugins.

End Page.

(* ===================================================================== *)
(** * Properties of the pause tracker *)
(* ===================================================================== *)

Module PauseTrackingProofs.
Import PauseTracking.

(** ** Handles are fresh *)

Lemma wf_init : wf init.
Proof.
  split; simpl.
  - intros id due H. by rewrite lookup_empty in H.
  - intros id H. discriminate.
Qed.

Lemma wf_reset s : wf s → wf (reset s).
Proof.
  intros [Hp Ht]. unfold reset, clearTimeout.
  destruct (timer s) as [id0|] eqn:E; split; simpl; try done.
  - intros id due [_ H]%lookup_delete_Some. eauto.
  - intros id H. rewrite H in E. eauto.
Qed.

Lemma wf_step now i s : wf s → wf (step now i s).1.
Proof.
  intros Hs. destruct i; simpl; try by apply wf_reset.
  - unfold on_play. by destruct (initPauseTime s).
  - unfold on_pause. destruct (isSeeking player || locked s); [done|].
    destruct Hs as [Hp Ht]. split; simpl.
    + intros id due [[<- _]|[_ H]]%lookup_insert_Some; [lia|].
      apply Hp in H. lia.
    + intros id [= <-]. lia.
  - unfold fire. destruct (pending s !! id) as [due|] eqn:E; [|done].
    destruct (due <=? now); [|done].
    destruct Hs as [Hp Ht]. split; simpl; [|done].
    intros id' due' [_ H]%lookup_delete_Some. eauto.
Qed.

Lemma tracker_run_cons now i tr s :
  run ((now, i) :: tr) s =
  ((run tr (step now i s).1).1, (step now i s).2 ++ (run tr (step now i s).1).2).
Proof.
  cbn [run]. destruct (step now i s) as [s1 out1]. cbn [fst snd].
  destruct (run tr s1) as [s2 out2]. reflexivity.
Qed.

Lemma wf_run tr : ∀ s, wf s → wf (run tr s).1.
Proof.
  induction tr as [|[now i] tr IH]; intros s Hs; [done|].
  rewrite tracker_run_cons. simpl. by apply IH, wf_step.
Qed.

Lemma reachable_wf s : reachable s → wf s.
Proof. intros [tr <-]. apply wf_run, wf_init. Qed.

Lemma next_timer_unused s : wf s → pending s !! next_timer s = None.
Proof.
  intros [Hp _]. destruct (pending s !! next_timer s) as [due|] eqn:E; [|done].
  apply Hp in E. lia.
Qed.

(** A handle that was handed out and is no longer outstanding never comes
    back: later timers get later handles. *)
Lemma retired_step now i s id :
  (id < next_timer s)%positive → pending s !! id = None →
  (id < next_timer (step now i s).1)%positive ∧
  pending (step now i s).1 !! id = None.
Proof.
  intros Hlt Hno.
  assert (Hreset : (id < next_timer (reset s))%positive ∧
                   pending (reset s) !! id = None).
  { unfold reset, clearTimeout. destruct (timer s); simpl; split; try done.
    apply lookup_delete_None. by right. }
  destruct i; simpl; try done.
  - unfold on_play. by destruct (initPauseTime s).
  - unfold on_pause. destruct (isSeeking player || locked s); [done|].
    simpl. split; [lia|]. apply lookup_insert_None. split; [done|lia].
  - unfold fire. destruct (pending s !! id0) as [due|]; [|done].
    destruct (due <=? now); [|done]. simpl. split; [done|].
    apply lookup_delete_None. by right.
Qed.

Lemma retired_run tr : ∀ s id,
  (id < next_timer s)%positive → pending s !! id = None →
  pending (run tr s).1 !! id = None.
Proof.
  induction tr as [|[now i] tr IH]; intros s id Hlt Hno; [done|].
  rewrite tracker_run_cons. simpl.
  destruct (retired_step now i s id Hlt Hno) as [H1 H2]. by apply IH.
Qed.

(** ** A play inside the debounce delay *)

(** C1, as stated, fails: from the initial state, a raw pause at 0 ms with
    the player idle, a raw play at 100 ms and the pause's timer coming due at
    300 ms yield one [tracking:pause] and [pauseCount = 1].  The play handler
    never touches the timer. *)
Lemma debounce_suppression_counterexample :
  isSeeking idle_player = false ∧ locked init = false ∧
  0 ≤ 100 < 0 + 300 ∧ 0 + 300 ≤ 300 ∧
  (run [(0, pause idle_player); (100, play); (300, timeout 1%positive)] init).2
    = [tracking_pause {| data_pauseTime := 0%Q; data_pauseCount := 1 |}] ∧
  pauseCount
    (run [(0, pause idle_player); (100, play); (300, timeout 1%positive)] init).1
    = 1 ∧
  ¬ debounce_suppressed init idle_player 0 100 300.
Proof.
  repeat split; try done.
  intros [H _]. vm_compute in H. discriminate.
Qed.

(** C1 (amended): in every reachable state, a raw pause that passes the guard
    followed by a raw play inside the 300 ms delay emits no [tracking:pause]
    at either event and leaves [pauseCount] unchanged there, and the play
    emits nothing at all unless an earlier pause was confirmed; but the play
    does not cancel the timer: it is still outstanding after the play, and
    when the host runs it, 300 ms or more after the pause, it emits exactly
    one [tracking:pause] and increments [pauseCount] by one. *)
Theorem play_inside_delay_does_not_cancel
    (s : Tracker) (p : Player) (t0 t1 t2 : Z) :
  reachable s → isSeeking p = false → locked s = false →
  t0 ≤ t1 < t0 + 300 → t0 + 300 ≤ t2 →
  let id := next_timer s in
  let r1 := step t0 (pause p) s in
  let r2 := step t1 play r1.1 in
  let r3 := step t2 (timeout id) r2.1 in
  r1.2 = [] ∧ pauseCount r1.1 = pauseCount s ∧
  (∀ d, tracking_pause d ∉ r2.2) ∧
  (initPauseTime s = None → r2.2 = []) ∧
  pauseCount r2.1 = pauseCount s ∧
  pending r2.1 !! id = Some (t0 + 300) ∧
  r3.2 = [tracking_pause {| data_pauseTime := pauseTime r2.1;
                            data_pauseCount := pauseCount s + 1 |}] ∧
  pauseCount r3.1 = pauseCount s + 1.
Proof.
  intros Hreach Hseek Hlock Ht1 Ht2. simpl.
  unfold on_pause. rewrite Hseek, Hlock. simpl.
  split; [done|]. split; [done|].
  assert (Hdue : (t0 + 300 <=? t2) = true) by (apply Z.leb_le; lia).
  unfold on_play. simpl. destruct (initPauseTime s) as [t|]; simpl.
  - split. { intros d Hin. apply list_elem_of_singleton in Hin. discriminate. }
    split; [done|]. split; [done|].
    split. { apply lookup_insert_eq. }
    unfold fire. simpl. rewrite lookup_insert_eq, Hdue. done.
  - split. { intros d Hin. by apply not_elem_of_nil in Hin. }
    split; [done|]. split; [done|].
    split. { apply lookup_insert_eq. }
    unfold fire. simpl. rewrite lookup_insert_eq, Hdue. done.
Qed.

Lemma play_inside_delay_does_not_cancel_witness :
  reachable init ∧ isSeeking idle_player = false ∧ locked init = false ∧
  0 ≤ 100 < 0 + 300 ∧ 0 + 300 ≤ 300 ∧
  pauseCount
    (step 300 (timeout (next_timer init))
       (step 100 play (step 0 (pause idle_player) init).1).1).1
  = pauseCount init + 1.
Proof.
  assert (Hr : reachable init) by (exists []; reflexivity).
  assert (H1 : 0 ≤ 100 < 0 + 300) by lia.
  assert (H2 : 0 + 300 ≤ 300) by lia.
  repeat (split; [first [exact Hr | exact H1 | exact H2 | reflexivity]|]).
  exact (proj2 (proj2 (proj2 (proj2 (proj2 (proj2 (proj2
    (play_inside_delay_does_not_cancel init idle_player 0 100 300
       Hr eq_refl eq_refl H1 H2)))))))).
Defined.

(** ** How many timers can be outstanding *)

(** C3, as stated, fails: two raw pauses 10 ms apart, with the player idle
    and nothing in between, leave two timers outstanding; both run, and
    [pauseCount] ends at 2. *)
Lemma single_pending_timer_counterexample :
  size (pending (run [(0, pause idle_player); (10, pause idle_player)] init).1)
    = 2%nat ∧
  pauseCount
    (run [(0, pause idle_player); (10, pause idle_player);
          (300, timeout 1%positive); (310, timeout 2%positive)] init).1 = 2 ∧
  ¬ single_pending_timer.
Proof.
  split; [by vm_compute|]. split; [by vm_compute|].
  intros H.
  specialize (H (run [(0, pause idle_player); (10, pause idle_player)] init).1).
  assert (Hr : reachable
            (run [(0, pause idle_player); (10, pause idle_player)] init).1)
    by (by eexists).
  apply H in Hr. vm_compute in Hr. lia.
Qed.

(** C3 (amended): the tracker does not bound the number of outstanding
    timers.  In every reachable state, a raw pause that passes the guard adds
    one timer under a fresh handle and keeps every timer that was already
    outstanding; the stored handle names the new one.  A timer that the host
    runs increments [pauseCount] by exactly one and is retired for good: no
    later run of the same handle has any effect.  Hence one raw pause never
    increments [pauseCount] more than once. *)
Theorem timers_accumulate_and_run_once (s : Tracker) :
  reachable s →
  (∀ now p, isSeeking p = false → locked s = false →
     let s' := (step now (pause p) s).1 in
     pending s !! next_timer s = None ∧
     pending s' = <[next_timer s := now + 300]> (pending s) ∧
     size (pending s') = S (size (pending s)) ∧
     timer s' = Some (next_timer s)) ∧
  (∀ now id due, pending s !! id = Some due → due ≤ now →
     let s' := (step now (timeout id) s).1 in
     pauseCount s' = pauseCount s + 1 ∧
     pending s' = delete id (pending s) ∧
     ∀ tr now', step now' (timeout id) (run tr s').1 = ((run tr s').1, [])).
Proof.
  intros Hreach. pose proof (reachable_wf s Hreach) as Hwf.
  pose proof (next_timer_unused s Hwf) as Hfresh. split.
  - intros now p Hseek Hlock. simpl. unfold on_pause.
    rewrite Hseek, Hlock. simpl.
    split; [done|]. split; [done|]. split; [|done].
    by apply map_size_insert_None.
  - intros now id due Hid Hdue. simpl. unfold fire. rewrite Hid.
    assert (Hle : (due <=? now) = true) by (apply Z.leb_le; lia).
    rewrite Hle. simpl. split; [done|]. split; [done|].
    intros tr now'. simpl. unfold fire.
    rewrite retired_run; [done| |].
    + simpl. destruct Hwf as [Hp _]. eauto.
    + simpl. apply lookup_delete_eq.
Qed.

Lemma timers_accumulate_and_run_once_witness :
  reachable (step 0 (pause idle_player) init).1 ∧
  size (pending (step 10 (pause idle_player)
                   (step 0 (pause idle_player) init).1).1) = 2%nat.
Proof.
  assert (Hr : reachable (step 0 (pause idle_player) init).1)
    by (exists [(0, pause idle_player)]; reflexivity).
  split; [exact Hr|].
  exact (proj1 (proj2 (proj2
    (proj1 (timers_accumulate_and_run_once _ Hr) 10 idle_player
       eq_refl eq_refl)))).
Defined.

(** ** Pauses the guard rejects *)

(** C6: a raw pause that arrives while the player reports seeking or
    scrubbing, or while the suppression flag is set, changes nothing: no
    timer is started, [pauseCount] keeps its value, nothing is emitted, and
    the rest of the run is the run without that event. *)
Theorem guarded_pause_is_ignored (s : Tracker) (p : Player) (now : Z) :
  seeking p = Some true ∨ scrubbing p = Some true ∨ locked s = true →
  step now (pause p) s = (s, []) ∧
  pending (step now (pause p) s).1 = pending s ∧
  pauseCount (step now (pause p) s).1 = pauseCount s ∧
  ∀ tr, run ((now, pause p) :: tr) s = run tr s.
Proof.
  intros H.
  assert (Hstep : step now (pause p) s = (s, [])).
  { simpl. unfold on_pause, isSeeking.
    destruct H as [-> | [-> | ->]]; simpl.
    - done.
    - by destruct (seeking p) as [[]|].
    - by rewrite orb_true_r. }
  rewrite Hstep. repeat split.
  intros tr. rewrite tracker_run_cons, Hstep. simpl. by destruct (run tr s).
Qed.

Lemma guarded_pause_is_ignored_witness :
  (seeking seeking_player = Some true ∨ scrubbing seeking_player = Some true ∨
   locked init = true) ∧
  step 0 (pause seeking_player) init = (init, []).
Proof.
  split; [left; reflexivity|].
  exact (proj1 (guarded_pause_is_ignored init seeking_player 0
                  (or_introl eq_refl))).
Defined.

(** ** What [tracking:pause] reports *)

Lemma completed_pauses_total tr : ∀ s since acc,
  initPauseTime s = since → pauseTime s = total acc →
  pauseTime (run tr s).1 = total (completed_pauses tr s since acc).
Proof.
  induction tr as [|[now i] tr IH]; intros s since acc Hsince Hacc; [done|].
  rewrite tracker_run_cons. cbn [fst completed_pauses].
  destruct i; try (apply IH; done).
  - apply IH; cbn [step]; unfold on_play; rewrite Hsince;
      destruct since as [t0|]; cbn [fst pauseTime initPauseTime]; try done.
    unfold total in *. rewrite fold_left_app. cbn [fold_left].
    by rewrite Hacc.
  - simpl. unfold on_pause.
    destruct (isSeeking player || locked s); simpl; by apply IH.
  - simpl. unfold fire. destruct (pending s !! id) as [due|]; [|by apply IH].
    destruct (due <=? now); simpl; by apply IH.
Qed.

(** C10: a [tracking:pause] is emitted only by the timer callback.  Its
    payload carries the [pauseTime] the tracker held before the callback,
    which in any run is the sum of the pauses completed since the last
    reset; the callback leaves [pauseTime] as it is and records
    [initPauseTime], and the pause being reported is added only by the play
    that ends it, whose [tracking:unpause] carries the new sum.  No input
    other than such a play or a reset changes [pauseTime]. *)
Theorem tracking_pause_excludes_current_pause
    (tr : list (Z * Input)) (now : Z) (i : Input) :
  let s := (run tr init).1 in
  pauseTime s = total (completed_pauses tr init None []) ∧
  (∀ d, tracking_pause d ∈ (step now i s).2 →
     let s' := (step now i s).1 in
     (∃ id, i = timeout id) ∧
     data_pauseTime d = total (completed_pauses tr init None []) ∧
     pauseTime s' = pauseTime s ∧
     initPauseTime s' = Some now ∧
     ∀ t1,
       let sum :=
         (pauseTime s + inject_Z (t1 - now) / inject_Z 1000)%Q in
       pauseTime (step t1 play s').1 = sum ∧
       (step t1 play s').2 =
         [tracking_unpause {| data_pauseTime := sum;
                              data_pauseCount := pauseCount s' |}]) ∧
  (pauseTime (step now i s).1 = pauseTime s ∨
   (i = play ∧ ∃ t0, initPauseTime s = Some t0 ∧
      pauseTime (step now i s).1 =
        (pauseTime s + inject_Z (now - t0) / inject_Z 1000)%Q) ∨
   ((i = dispose ∨ i = loadstart ∨ i = ended) ∧
      pauseTime (step now i s).1 = 0%Q)).
Proof.
  intros s.
  assert (Hsum : pauseTime s = total (completed_pauses tr init None []))
    by (by apply completed_pauses_total).
  split; [done|]. rewrite <- Hsum. clearbody s. clear Hsum. split.
  - intros d Hin. destruct i; simpl in Hin.
    1-3: by apply not_elem_of_nil in Hin.
    + unfold on_play in Hin. destruct (initPauseTime s); simpl in Hin.
      * apply list_elem_of_singleton in Hin. discriminate.
      * by apply not_elem_of_nil in Hin.
    + unfold on_pause in Hin.
      destruct (isSeeking player || locked s); simpl in Hin;
        by apply not_elem_of_nil in Hin.
    + simpl. unfold fire in *. destruct (pending s !! id) as [due|].
      2: { by apply not_elem_of_nil in Hin. }
      destruct (due <=? now).
      2: { by apply not_elem_of_nil in Hin. }
      simpl in *. apply list_elem_of_singleton in Hin. injection Hin as ->.
      simpl. split; [by exists id|]. repeat split.
  - destruct i; simpl.
    1-3: right; right; split; [tauto | reflexivity].
    + unfold on_play. destruct (initPauseTime s) as [t0|] eqn:E; simpl.
      * right; left. split; [done|]. by exists t0.
      * by left.
    + left. unfold on_pause. by destruct (isSeeking player || locked s).
    + left. unfold fire. destruct (pending s !! id) as [due|]; [|done].
      by destruct (due <=? now).
Qed.

(** A pause of 1.7 s that was confirmed and ended, then a second pause. *)
Lemma tracking_pause_excludes_current_pause_witness :
  (tracking_pause {| data_pauseTime := (0 + 1700 # 1000)%Q;
                     data_pauseCount := 2 |}
     ∈ (step 5300 (timeout 2%positive)
          (run [(0, pause idle_player); (300, timeout 1%positive);
                (2000, play); (5000, pause idle_player)] init).1).2) ∧
  data_pauseTime {| data_pauseTime := (0 + 1700 # 1000)%Q;
                    data_pauseCount := 2 |}
    = total [(inject_Z (2000 - 300) / inject_Z 1000)%Q].
Proof.
  assert (Hin :
    tracking_pause {| data_pauseTime := (0 + 1700 # 1000)%Q;
                      data_pauseCount := 2 |}
      ∈ (step 5300 (timeout 2%positive)
           (run [(0, pause idle_player); (300, timeout 1%positive);
                 (2000, play); (5000, pause idle_player)] init).1).2).
  { apply list_elem_of_singleton. reflexivity. }
  split; [exact Hin|].
  exact (proj1 (proj2 (proj1 (proj2
    (tracking_pause_excludes_current_pause
       [(0, pause idle_player); (300, timeout 1%positive);
        (2000, play); (5000, pause idle_player)]
       5300 (timeout 2%positive))) _ Hin))).
Defined.

End PauseTrackingProofs.

(* ===================================================================== *)
(** * Properties of the performance aggregator *)
(* ===================================================================== *)

Module PerformanceTrackingProofs.
Import PerformanceTracking.

(** ** Numbers and arrays *)

Lemma indexOf_ge x l : -1 ≤ indexOf x l.
Proof.
  induction l as [|y l IH]; simpl; [lia|].
  destruct (x =? y); [lia|]. destruct (indexOf x l <? 0) eqn:E; [lia|].
  apply Z.ltb_ge in E. lia.
Qed.

Lemma indexOf_absent x l : (indexOf x l <? 0) = true ↔ x ∉ l.
Proof.
  induction l as [|y l IH]; simpl.
  - split; [intros _; apply not_elem_of_nil | done].
  - rewrite not_elem_of_cons. destruct (x =? y) eqn:Exy.
    + apply Z.eqb_eq in Exy. split; [done | intros [? _]; done].
    + apply Z.eqb_neq in Exy. destruct (indexOf x l <? 0) eqn:E.
      * split; [|done]. intros _. split; [done|]. by apply IH.
      * split.
        -- intros H. apply Z.ltb_lt in H. apply Z.ltb_ge in E. lia.
        -- intros [_ H]. apply IH in H. discriminate.
Qed.

Lemma indexOf_present x l : (indexOf x l <? 0) = false ↔ x ∈ l.
Proof.
  destruct (indexOf x l <? 0) eqn:E.
  - apply indexOf_absent in E. split; [done | intros H; by apply E in H].
  - split; [|done]. intros _. destruct (decide (x ∈ l)) as [H|H]; [done|].
    apply indexOf_absent in H. congruence.
Qed.



Section Plugin.

Variable v4 : nat → string.
Variable player : nat.
Variable window_addEventListener : bool.
Variable opts : Options.

Local Abbreviation init := (init v4 window_addEventListener).
Local Abbreviation reset := (reset v4).
Local Abbreviation trigger := (trigger player opts).
Local Abbreviation handle := (handle v4 player window_addEventListener opts).
Local Abbreviation run := (run v4 player window_addEventListener opts).
Local Abbreviation observed := (observed v4 player window_addEventListener opts).
Local Abbreviation reachable := (reachable v4 player window_addEventListener opts).

Lemma aggregator_run_cons e evs s :
  run (e :: evs) s =
  ((run evs (handle e s).1).1, (handle e s).2 ++ (run evs (handle e s).1).2).
Proof.
  cbn [PerformanceTracking.run]. destruct (handle e s) as [s1 calls1].
  cbn [fst snd]. destruct (run evs s1) as [s2 calls2]. reflexivity.
Qed.

(** ** The watched-seconds array *)

Lemma on_timeupdate_state x s :
  (on_timeupdate player opts x s).1 =
  if indexOf (toFixed0 x) (timestamps s) <? 0 then
    {| session := session s;
       seekCount := seekCount s;
       pauseTime := pauseTime s;
       pauseCount := pauseCount s;
       bufferCount := bufferCount s;
       totalDuration := totalDuration s;
       watchedDuration := Z.of_nat (length (timestamps s ++ [toFixed0 x]));
       bufferDuration := bufferDuration s;
       initialLoadTime := initialLoadTime s;
       timestamps := timestamps s ++ [toFixed0 x];
       v4_calls := v4_calls s;
       beforeunload_listener := beforeunload_listener s |}
  else s.
Proof.
  unfold on_timeupdate. destruct (indexOf (toFixed0 x) (timestamps s) <? 0); [|done].
  by destruct (is_zero _).
Qed.

Lemma consistent_reset s : consistent (reset s) [].
Proof. repeat split; simpl; try done. apply NoDup_nil_2. Qed.

Lemma consistent_step e s seen :
  consistent s seen →
  consistent (handle e s).1
    (if resets e s then []
     else match mark e with Some m => seen ++ [m] | None => seen end).
Proof.
  intros Hc. destruct e; simpl; try apply consistent_reset; try done.
  - destruct (beforeunload_listener s); [apply consistent_reset | done].
  - rewrite on_timeupdate_state.
    destruct Hc as (Hwd & Hnd & Hseen).
    destruct (indexOf (toFixed0 currentTime) (timestamps s) <? 0) eqn:E.
    + apply indexOf_absent in E. repeat split; simpl.
      * apply NoDup_app. split; [done|]. split; [|apply NoDup_singleton].
        intros m Hm ->%list_elem_of_singleton. done.
      * rewrite !elem_of_app, Hseen. done.
      * rewrite !elem_of_app, Hseen. done.
    + apply indexOf_present in E. repeat split; try done.
      * intros Hm. apply elem_of_app. left. by apply Hseen.
      * intros [Hm | ->%list_elem_of_singleton]%elem_of_app; [by apply Hseen|done].
  - unfold on_tracking_pause. by destruct (triggerOnPause opts).
Qed.

Lemma consistent_run evs : ∀ s seen,
  consistent s seen → consistent (run evs s).1 (observed evs s seen).
Proof.
  induction evs as [|e evs IH]; intros s seen Hc; [done|].
  rewrite aggregator_run_cons. simpl. by apply IH, consistent_step.
Qed.

Lemma consistent_init : consistent init [].
Proof. repeat split; simpl; try done. apply NoDup_nil_2. Qed.

Lemma consistent_distinct s seen :
  consistent s seen → watchedDuration s = Z.of_nat (distinct seen).
Proof.
  intros (Hwd & Hnd & Hseen). rewrite Hwd. f_equal. unfold distinct.
  rewrite <- (size_list_to_set (C:=gset Z) (timestamps s)) by done.
  f_equal. apply set_eq. intros m. rewrite !elem_of_list_to_set. by rewrite Hseen.
Qed.

(** ** Terminal flushes *)

(** C2: [ended] and [dispose] deliver the session's snapshot, once, and
    then reset, whatever the state; [loadstart] delivers it, once, and then
    resets when [totalDuration > 0], and only resets, delivering nothing,
    otherwise, in particular when [totalDuration] is 0.  The snapshot
    delivered holds the nine values the session had when the event arrived;
    after the reset the session has the next identifier, every counter is
    zero and no second-mark is left. *)
Theorem final_snapshot_then_reset (s : State) :
  let final :=
    [ {| callee := performance opts;
         this_arg := player;
         argument :=
           [ ("session", VString (session s));
             ("pauseTime", VNumber (Fin (pauseTime s)));
             ("pauseCount", VNumber (Fin (inject_Z (pauseCount s))));
             ("seekCount", VNumber (Fin (inject_Z (seekCount s))));
             ("bufferCount", VNumber (Fin (inject_Z (bufferCount s))));
             ("totalDuration", VNumber (totalDuration s));
             ("watchedDuration", VNumber (Fin (inject_Z (watchedDuration s))));
             ("bufferDuration", VNumber (Fin (bufferDuration s)));
             ("initialLoadTime", VNumber (Fin (initialLoadTime s))) ]%string
      |} ] in
  let fresh := λ listener : bool,
    {| session := v4 (v4_calls s);
       seekCount := 0;
       pauseTime := 0%Q;
       pauseCount := 0;
       bufferCount := 0;
       totalDuration := Fin 0%Q;
       watchedDuration := 0;
       bufferDuration := 0%Q;
       initialLoadTime := 0%Q;
       timestamps := [];
       v4_calls := S (v4_calls s);
       beforeunload_listener := listener |} in
  handle ended s = (fresh (beforeunload_listener s), final) ∧
  handle dispose s =
    (fresh (if window_addEventListener then false
            else beforeunload_listener s), final) ∧
  (totalDuration s = PosInfinity ∨
   (∃ q, totalDuration s = Fin q ∧ (0 < q)%Q) →
     handle loadstart s = (fresh (beforeunload_listener s), final)) ∧
  (totalDuration s = NaN ∨ totalDuration s = NegInfinity ∨
   (∃ q, totalDuration s = Fin q ∧ (q <= 0)%Q) →
     handle loadstart s = (fresh (beforeunload_listener s), [])) ∧
  (∀ q, totalDuration s = Fin q → (q == 0)%Q →
     handle loadstart s = (fresh (beforeunload_listener s), [])).
Proof.
  cbn zeta. split; [done|]. split.
  { cbn. by destruct window_addEventListener. }
  assert (Hpos : ∀ q, (0 < q)%Q → Qle_bool q 0 = false).
  { intros q Hq. apply not_true_iff_false. intros H.
    apply Qle_bool_iff in H. by apply Qlt_not_le in Hq. }
  assert (Hneg : ∀ q, (q <= 0)%Q → Qle_bool q 0 = true).
  { intros q Hq. by apply Qle_bool_iff. }
  cbn [PerformanceTracking.handle]. unfold on_loadstart. split; [|split].
  - intros H. assert (Hg : gt0 (totalDuration s) = true).
    { destruct H as [H | (q & H & Hq)]; rewrite H; [done|].
      cbn. by rewrite (Hpos q Hq). }
    by rewrite Hg.
  - intros H. assert (Hg : gt0 (totalDuration s) = false).
    { destruct H as [H | [H | (q & H & Hq)]]; rewrite H; [done | done |].
      cbn. by rewrite (Hneg q Hq). }
    by rewrite Hg.
  - intros q H Hq. assert (Hg : gt0 (totalDuration s) = false).
    { rewrite H. cbn. rewrite (Hneg q); [done|]. rewrite Hq. apply Qle_refl. }
    by rewrite Hg.
Qed.

(** ** The interval flush *)


(** ** Watched seconds *)

(** C5: in any run from construction, [watchedDuration] is the number of
    distinct second-marks observed since the last reset; two [timeupdate]s
    in a row whose positions round to the same mark raise it by exactly one
    when that mark is new, and not at all when it has been seen. *)
Theorem watched_duration_counts_distinct_marks (evs : list Event) (x y : Q) :
  let s := (run evs init).1 in
  let seen := observed evs init [] in
  watchedDuration s = Z.of_nat (distinct seen) ∧
  (toFixed0 x = toFixed0 y → toFixed0 x ∉ seen →
     watchedDuration (handle (timeupdate x) s).1 = watchedDuration s + 1 ∧
     watchedDuration (run [timeupdate x; timeupdate y] s).1
       = watchedDuration s + 1) ∧
  (toFixed0 x = toFixed0 y → toFixed0 x ∈ seen →
     watchedDuration (run [timeupdate x; timeupdate y] s).1
       = watchedDuration s).
Proof.
  intros s seen.
  pose proof (consistent_run evs init [] consistent_init) as Hc.
  fold s seen in Hc. split; [by apply consistent_distinct|].
  destruct Hc as (Hwd & Hnd & Hseen).
  rewrite !aggregator_run_cons. simpl. rewrite !on_timeupdate_state. split.
  - intros Hxy Hnew. rewrite <- Hseen in Hnew.
    apply indexOf_absent in Hnew. rewrite <- Hxy, Hnew. simpl.
    assert (Hin : (indexOf (toFixed0 x) (timestamps s ++ [toFixed0 x]) <? 0)
                  = false).
    { apply indexOf_present, elem_of_app. right.
      by apply list_elem_of_singleton. }
    rewrite Hin. simpl. rewrite length_app, Hwd. simpl. lia.
  - intros Hxy Hold. rewrite <- Hseen in Hold.
    apply indexOf_present in Hold. rewrite <- Hxy, Hold. by rewrite Hold.
Qed.

(** ** What a delivery looks like *)

(** C7 (amended): whenever a handler delivers, it makes exactly one call, of
    [config.performance], with the player as [this], and passes one object
    whose properties are exactly [session], [pauseTime], [pauseCount],
    [seekCount], [bufferCount], [totalDuration], [watchedDuration],
    [bufferDuration] and [initialLoadTime], each holding the value of the
    variable of that name at the call: the values the handler has just
    stored for an interval or pause flush, the values before the reset for a
    terminal flush. *)
Theorem delivery_contract (e : Event) (s : State) (c : Call) :
  c ∈ (handle e s).2 →
  let s' := if is_terminal e then s else (handle e s).1 in
  (handle e s).2 = [c] ∧
  callee c = performance opts ∧
  this_arg c = player ∧
  (argument c).*1 = data_fields ∧
  argument c =
    [ ("session", VString (session s'));
      ("pauseTime", of_Q (pauseTime s'));
      ("pauseCount", of_Z (pauseCount s'));
      ("seekCount", of_Z (seekCount s'));
      ("bufferCount", of_Z (bufferCount s'));
      ("totalDuration", VNumber (totalDuration s'));
      ("watchedDuration", of_Z (watchedDuration s'));
      ("bufferDuration", of_Q (bufferDuration s'));
      ("initialLoadTime", of_Q (initialLoadTime s')) ]%string.
Proof.
  intros Hin.
  assert (Hone : ∀ s1, c ∈ trigger s1 →
            trigger s1 = [c] ∧ callee c = performance opts ∧
            this_arg c = player ∧ (argument c).*1 = data_fields ∧
            argument c = data s1).
  { intros s1 ->%list_elem_of_singleton. done. }
  destruct e; simpl in *; try by apply not_elem_of_nil in Hin.
  - destruct (beforeunload_listener s); [by apply Hone|].
    by apply not_elem_of_nil in Hin.
  - unfold on_loadstart in *. simpl in *.
    destruct (gt0 (totalDuration s)); [by apply Hone|].
    by apply not_elem_of_nil in Hin.
  - by apply Hone.
  - destruct window_addEventListener; by apply Hone in Hin.
  - unfold on_timeupdate in *.
    destruct (indexOf (toFixed0 currentTime) (timestamps s) <? 0);
      [|by apply not_elem_of_nil in Hin].
    destruct (is_zero _); [by apply Hone|].
    by apply not_elem_of_nil in Hin.
  - unfold on_tracking_pause in *.
    destruct (triggerOnPause opts); [by apply Hone|].
    by apply not_elem_of_nil in Hin.
Qed.

(** ** The initial load time *)

(** C9 (amended): every [tracking:firstplay] stores its payload's
    [secondsToLoad] in [initialLoadTime], whatever was stored before (the
    last writer wins); any other event either leaves [initialLoadTime] as it
    is or ends the session and resets it to 0. *)
Theorem firstplay_overwrites_initial_load_time (s : State) (e : Event) :
  (∀ t, e = tracking_firstplay t → initialLoadTime (handle e s).1 = t) ∧
  ((∀ t, e ≠ tracking_firstplay t) →
     initialLoadTime (handle e s).1 = initialLoadTime s ∨
     (resets e s = true ∧ initialLoadTime (handle e s).1 = 0%Q)).
Proof.
  split; [by intros t ->|]. intros Hne.
  destruct e; simpl; try (by left); try (by right).
  - destruct (beforeunload_listener s); [by right | by left].
  - left. by rewrite on_timeupdate_state; destruct (_ <? 0).
  - left. unfold on_tracking_pause. by destruct (triggerOnPause opts).
  - by destruct (Hne secondsToLoad).
Qed.

End Plugin.

(** ** Construction *)

(** C8, as stated, fails: with a callable [performance] entry and no numeric
    [triggerInterval] entry the aggregator is installed, with the interval
    10, and [ended] reaches the callback. *)
Lemma misconfiguration_counterexample :
  typeof (config.triggerInterval sample_config) ≠ "number"%string ∧
  PerformanceTracking sample_v4 true (Some sample_config)
    = Some (sample_options, sample_init) ∧
  (deliver sample_v4 1 true [ended]
     (PerformanceTracking sample_v4 true (Some sample_config))).2
    = [ {| callee := VFunction 0; this_arg := 1%nat;
           argument := data sample_init |} ] ∧
  ¬ misconfiguration_deactivates.
Proof.
  split; [discriminate|]. split; [reflexivity|]. split; [reflexivity|].
  intros H. specialize (H sample_v4 true sample_config).
  discriminate H. right. discriminate.
Qed.

(** C8 (amended): when the configuration is undefined or its [performance]
    entry is not a function, the constructor installs nothing, so no event
    ever invokes a callback, and nothing is raised.  When [performance] is a
    function the aggregator is installed whatever the other entries hold: a
    [triggerInterval] entry that is not a number is replaced by 10, and a
    [triggerOnPause] entry that is not a boolean by [true]. *)
Theorem construction_guards
    (v4 : nat → string) (w : bool) (cfg : option config.t) :
  (cfg = None ∨
   (∃ c, cfg = Some c ∧ typeof (config.performance c) ≠ "function"%string) →
     PerformanceTracking v4 w cfg = None ∧
     ∀ player evs,
       deliver v4 player w evs (PerformanceTracking v4 w cfg) = (None, [])) ∧
  (∀ c, cfg = Some c → typeof (config.performance c) = "function"%string →
     ∃ o, PerformanceTracking v4 w cfg = Some (o, init v4 w) ∧
       performance o = config.performance c ∧
       (typeof (config.triggerInterval c) ≠ "number"%string →
          triggerInterval o = Fin (inject_Z 10)) ∧
       (∀ n, config.triggerInterval c = VNumber n → triggerInterval o = n) ∧
       (typeof (config.triggerOnPause c) ≠ "boolean"%string →
          triggerOnPause o = true) ∧
       (∀ b, config.triggerOnPause c = VBoolean b → triggerOnPause o = b)).
Proof.
  split.
  - intros Hbad.
    assert (Hnone : PerformanceTracking v4 w cfg = None).
    { destruct Hbad as [-> | (c & -> & Hty)]; [done|].
      unfold PerformanceTracking, options.
      by destruct (config.performance c). }
    rewrite Hnone. done.
  - intros c -> Hty. unfold PerformanceTracking, options.
    destruct (config.performance c) eqn:Ep; try discriminate Hty. simpl.
    eexists. split; [reflexivity|]. simpl. split; [done|].
    split. { by destruct (config.triggerInterval c). }
    split. { by intros n ->. }
    split. { by destruct (config.triggerOnPause c). }
    by intros b ->.
Qed.

Lemma construction_guards_witness :
  (Some {| config.performance := VString "log";
           config.triggerOnPause := VUndefined;
           config.triggerInterval := VNumber (Fin (inject_Z 5)) |} = None ∨
   (∃ c, Some {| config.performance := VString "log";
                 config.triggerOnPause := VUndefined;
                 config.triggerInterval := VNumber (Fin (inject_Z 5)) |}
           = Some c ∧
         typeof (config.performance c) ≠ "function"%string)) ∧
  PerformanceTracking sample_v4 true
    (Some {| config.performance := VString "log";
             config.triggerOnPause := VUndefined;
             config.triggerInterval := VNumber (Fin (inject_Z 5)) |}) = None.
Proof.
  assert (Hbad :
    Some {| config.performance := VString "log";
            config.triggerOnPause := VUndefined;
            config.triggerInterval := VNumber (Fin (inject_Z 5)) |} = None ∨
    (∃ c, Some {| config.performance := VString "log";
                  config.triggerOnPause := VUndefined;
                  config.triggerInterval := VNumber (Fin (inject_Z 5)) |}
            = Some c ∧
          typeof (config.performance c) ≠ "function"%string)).
  { right. eexists. split; [reflexivity|]. discriminate. }
  split; [exact Hbad|].
  exact (proj1 (proj1 (construction_guards sample_v4 true _) Hbad)).
Defined.

(** ** Closed instances *)

(** C7, as stated, fails on the name of the first property: the object
    [trigger] builds has a property [session] and none called
    [sessionId]. *)
Lemma snapshot_fields_counterexample :
  (handle sample_v4 1 true sample_options ended sample_init).2
    = [ {| callee := VFunction 0; this_arg := 1%nat;
           argument := data sample_init |} ] ∧
  (data sample_init).*1 ≠ documented_fields ∧
  ("sessionId"%string ∉ (data sample_init).*1) ∧
  ("session"%string ∈ (data sample_init).*1).
Proof.
  split; [reflexivity|]. split; [discriminate|]. split.
  - intros H. repeat (apply elem_of_cons in H as [H|H]; [discriminate H|]).
    by apply not_elem_of_nil in H.
  - apply elem_of_cons. by left.
Qed.

(** C9, as stated, fails: two [tracking:firstplay] events in one session,
    the first reporting 1.5 s and the second 2.5 s, leave 2.5 in
    [initialLoadTime]. *)
Lemma first_writer_wins_counterexample :
  initialLoadTime
    (run sample_v4 1 true sample_options
       [tracking_firstplay (3 # 2); tracking_firstplay (5 # 2)] sample_init).1
    = (5 # 2)%Q ∧
  ¬ first_writer_wins sample_v4 1 true sample_options.
Proof.
  split; [reflexivity|]. intros H.
  specialize (H sample_init (3 # 2)%Q (5 # 2)%Q). discriminate H.
Qed.

(** A session whose media lasts 120 s, reloaded. *)
Lemma final_snapshot_then_reset_witness :
  (totalDuration (on_loadeddata (Fin (inject_Z 120)) sample_init)
     = PosInfinity ∨
   (∃ q, totalDuration (on_loadeddata (Fin (inject_Z 120)) sample_init)
           = Fin q ∧ Qlt 0 q)) ∧
  (handle sample_v4 1 true sample_options loadstart
     (on_loadeddata (Fin (inject_Z 120)) sample_init)).2
  = [ {| callee := VFunction 0;
         this_arg := 1%nat;
         argument :=
           [ ("session", VString "x");
             ("pauseTime", VNumber (Fin 0));
             ("pauseCount", VNumber (Fin (inject_Z 0)));
             ("seekCount", VNumber (Fin (inject_Z 0)));
             ("bufferCount", VNumber (Fin (inject_Z 0)));
             ("totalDuration", VNumber (Fin (inject_Z 120)));
             ("watchedDuration", VNumber (Fin (inject_Z 0)));
             ("bufferDuration", VNumber (Fin 0));
             ("initialLoadTime", VNumber (Fin 0)) ]%string |} ].
Proof.
  assert (H :
    totalDuration (on_loadeddata (Fin (inject_Z 120)) sample_init)
      = PosInfinity ∨
    (∃ q, totalDuration (on_loadeddata (Fin (inject_Z 120)) sample_init)
            = Fin q ∧ Qlt 0 q)).
  { right. exists (inject_Z 120). split; reflexivity. }
  split; [exact H|].
  exact (f_equal snd
    (proj1 (proj2 (proj2
      (final_snapshot_then_reset sample_v4 1 true sample_options
         (on_loadeddata (Fin (inject_Z 120)) sample_init)))) H)).
Defined.


Lemma watched_duration_counts_distinct_marks_witness :
  toFixed0 (13 # 5) = toFixed0 (17 # 5) ∧
  (toFixed0 (13 # 5)
     ∉ observed sample_v4 1 true sample_options
         [timeupdate (1 # 5); timeupdate (7 # 5); timeupdate (6 # 5)]
         sample_init []) ∧
  watchedDuration
    (run sample_v4 1 true sample_options
       [timeupdate (13 # 5); timeupdate (17 # 5)]
       (run sample_v4 1 true sample_options
          [timeupdate (1 # 5); timeupdate (7 # 5); timeupdate (6 # 5)]
          sample_init).1).1
  = watchedDuration
      (run sample_v4 1 true sample_options
         [timeupdate (1 # 5); timeupdate (7 # 5); timeupdate (6 # 5)]
         sample_init).1 + 1.
Proof.
  assert (Hnew : toFixed0 (13 # 5)
    ∉ observed sample_v4 1 true sample_options
        [timeupdate (1 # 5); timeupdate (7 # 5); timeupdate (6 # 5)]
        sample_init []).
  { apply indexOf_absent. reflexivity. }
  split; [reflexivity|]. split; [exact Hnew|].
  exact (proj2 (proj1 (proj2
    (watched_duration_counts_distinct_marks sample_v4 1 true sample_options
       [timeupdate (1 # 5); timeupdate (7 # 5); timeupdate (6 # 5)]
       (13 # 5) (17 # 5))) eq_refl Hnew)).
Defined.

Lemma delivery_contract_witness :
  {| callee := VFunction 0; this_arg := 1%nat; argument := data sample_init |}
    ∈ (handle sample_v4 1 true sample_options ended sample_init).2 ∧
  (argument
     {| callee := VFunction 0; this_arg := 1%nat;
        argument := data sample_init |}).*1 = data_fields.
Proof.
  assert (Hin :
    {| callee := VFunction 0; this_arg := 1%nat; argument := data sample_init |}
      ∈ (handle sample_v4 1 true sample_options ended sample_init).2).
  { apply list_elem_of_singleton. reflexivity. }
  split; [exact Hin|].
  exact (proj1 (proj2 (proj2 (proj2
    (delivery_contract sample_v4 1 true sample_options ended sample_init _
       Hin))))).
Defined.

Lemma firstplay_overwrites_initial_load_time_witness :
  tracking_firstplay (5 # 2) = tracking_firstplay (5 # 2) ∧
  initialLoadTime
    (handle sample_v4 1 true sample_options (tracking_firstplay (5 # 2))
       (on_tracking_firstplay (3 # 2) sample_init)).1 = (5 # 2)%Q.
Proof.
  split; [reflexivity|].
  exact (proj1
    (firstplay_overwrites_initial_load_time sample_v4 1 true sample_options
       (on_tracking_firstplay (3 # 2) sample_init)
       (tracking_firstplay (5 # 2))) (5 # 2)%Q eq_refl).
Defined.

End PerformanceTrackingProofs.

(* ===================================================================== *)
(** * Further properties of the pause tracker *)
(* ===================================================================== *)

Module PauseTrackingLifecycle.
Import PauseTracking.

(** ** The suppression flag *)

Lemma locked_step now i s : locked s = false → locked (step now i s).1 = false.
Proof.
  intros H. destruct i; simpl; try done.
  - unfold on_play. by destruct (initPauseTime s).
  - unfold on_pause. by destruct (isSeeking player || locked s).
  - unfold fire. destruct (pending s !! id) as [due|]; [|done].
    by destruct (due <=? now).
Qed.

Lemma locked_run tr : ∀ s, locked s = false → locked (run tr s).1 = false.
Proof.
  induction tr as [|[now i] tr IH]; intros s H; [done|].
  rewrite PauseTrackingProofs.tracker_run_cons. simpl. by apply IH, locked_step.
Qed.

(** X1: nothing ever sets the suppression flag: it is [false] in every state
    the tracker can reach, so a raw pause is dropped exactly when the player
    reports seeking or scrubbing, and otherwise arms a timer due 300 ms
    later under the next handle, which becomes the stored handle. *)
Theorem suppression_flag_never_set (s : Tracker) (p : Player) (now : Z) :
  reachable s →
  locked s = false ∧
  step now (pause p) s =
    if isSeeking p then (s, [])
    else ({| pauseTime := pauseTime s;
             pauseCount := pauseCount s;
             initPauseTime := initPauseTime s;
             timer := Some (next_timer s);
             locked := false;
             next_timer := Pos.succ (next_timer s);
             pending := <[next_timer s := now + 300]> (pending s) |}, []).
Proof.
  intros [tr <-].
  assert (H : locked (run tr init).1 = false) by by apply locked_run.
  split; [done|]. simpl. unfold on_pause. rewrite H, orb_false_r.
  destruct (isSeeking p); [done|]. simpl. by rewrite H.
Qed.

Lemma suppression_flag_never_set_witness :
  reachable (step 0 (pause idle_player) init).1 ∧
  locked (step 0 (pause idle_player) init).1 = false.
Proof.
  assert (Hr : reachable (step 0 (pause idle_player) init).1)
    by (exists [(0, pause idle_player)]; reflexivity).
  split; [exact Hr|].
  exact (proj1 (suppression_flag_never_set _ idle_player 0 Hr)).
Defined.

(** ** Teardown *)

(** A tracker with nothing outstanding and no confirmed pause. *)
Lemma quiet_step now i s :
  (∀ q, i ≠ pause q) →
  pending s = ∅ → initPauseTime s = None → pauseCount s = 0 →
  (step now i s).2 = [] ∧ pending (step now i s).1 = ∅ ∧
  initPauseTime (step now i s).1 = None ∧ pauseCount (step now i s).1 = 0.
Proof.
  intros Hi Hp Hinit Hc. destruct i; simpl.
  1-3: unfold reset, clearTimeout; destruct (timer s); simpl;
       rewrite Hp; repeat split; apply delete_empty.
  - unfold on_play. by rewrite Hinit.
  - by destruct (Hi player).
  - unfold fire. by rewrite Hp, lookup_empty.
Qed.

Lemma quiet_run tr : ∀ s,
  Forall (λ e : Z * Input, ∀ q, e.2 ≠ pause q) tr →
  pending s = ∅ → initPauseTime s = None → pauseCount s = 0 →
  (run tr s).2 = [] ∧ pauseCount (run tr s).1 = 0.
Proof.
  induction tr as [|[now i] tr IH]; intros s Hall Hp Hinit Hc; [done|].
  apply Forall_cons in Hall as [Hi Hall].
  rewrite PauseTrackingProofs.tracker_run_cons. simpl.
  destruct (quiet_step now i s Hi Hp Hinit Hc) as (-> & H1 & H2 & H3).
  by apply IH.
Qed.

(** X2: a raw pause that a teardown follows before its timer ran is never
    counted.  From a reachable state with no timer outstanding, a pause the
    guard accepts and then [dispose], [loadstart] or [ended] leave no timer
    outstanding and all counters at zero, emit nothing, and until the next
    raw pause no input emits anything or changes [pauseCount]. *)
Theorem pause_cancelled_by_teardown
    (s : Tracker) (p : Player) (t0 t1 : Z) (i : Input) :
  reachable s → pending s = ∅ → isSeeking p = false → is_reset i = true →
  let r := run [(t0, pause p); (t1, i)] s in
  r.2 = [] ∧ pending r.1 = ∅ ∧
  pauseCount r.1 = 0 ∧ pauseTime r.1 = 0%Q ∧ initPauseTime r.1 = None ∧
  ∀ tr, Forall (λ e : Z * Input, ∀ q, e.2 ≠ pause q) tr →
    (run tr r.1).2 = [] ∧ pauseCount (run tr r.1).1 = 0.
Proof.
  intros [tr0 <-] Hp Hseek Hi.
  assert (Hl : locked (run tr0 init).1 = false) by by apply locked_run.
  set (s := (run tr0 init).1) in *.
  assert (Hr : run [(t0, pause p); (t1, i)] s
               = (reset (on_pause t0 p s).1, [])).
  { rewrite !PauseTrackingProofs.tracker_run_cons. simpl.
    unfold on_pause. rewrite Hseek, Hl. simpl. by destruct i. }
  rewrite Hr. simpl.
  assert (Hpend : pending (reset (on_pause t0 p s).1) = ∅).
  { unfold on_pause. rewrite Hseek, Hl. simpl. unfold reset. simpl.
    rewrite Hp, delete_insert_eq. apply delete_empty. }
  repeat split; try done.
  all: by apply quiet_run.
Qed.

Lemma pause_cancelled_by_teardown_witness :
  reachable init ∧ pending init = ∅ ∧ isSeeking idle_player = false ∧
  is_reset ended = true ∧
  pending (run [(0, pause idle_player); (100, ended)] init).1 = ∅.
Proof.
  assert (Hr : reachable init) by (exists []; reflexivity).
  split; [exact Hr|]. repeat (split; [reflexivity|]).
  exact (proj1 (proj2
    (pause_cancelled_by_teardown init idle_player 0 100 ended
       Hr eq_refl eq_refl eq_refl))).
Defined.

(** X3: [reset] cancels the stored handle only.  When a second accepted
    pause arrives while the timer of a first is outstanding, a teardown
    cancels the second timer and zeroes the counters, but the first timer
    stays outstanding; when it runs, it emits [tracking:pause] with
    [pauseCount = 1] and [pauseTime = 0] in the session that follows. *)
Theorem overlapped_pause_survives_teardown
    (s : Tracker) (p1 p2 : Player) (t0 t1 t2 t3 : Z) (i : Input) :
  reachable s → isSeeking p1 = false → isSeeking p2 = false →
  is_reset i = true → t0 + 300 ≤ t3 →
  let s3 := (run [(t0, pause p1); (t1, pause p2); (t2, i)] s).1 in
  pauseCount s3 = 0 ∧
  pending s3 !! next_timer s = Some (t0 + 300) ∧
  pending s3 !! Pos.succ (next_timer s) = None ∧
  step t3 (timeout (next_timer s)) s3 =
    ({| pauseTime := 0%Q;
        pauseCount := 1;
        initPauseTime := Some t3;
        timer := timer s3;
        locked := false;
        next_timer := next_timer s3;
        pending := delete (next_timer s) (pending s3) |},
     [tracking_pause {| data_pauseTime := 0%Q; data_pauseCount := 1 |}]).
Proof.
  intros [tr0 <-] Hs1 Hs2 Hi Hdue.
  assert (Hl : locked (run tr0 init).1 = false) by by apply locked_run.
  set (s := (run tr0 init).1) in *.
  assert (Hr : (run [(t0, pause p1); (t1, pause p2); (t2, i)] s).1
               = reset (on_pause t1 p2 (on_pause t0 p1 s).1).1).
  { rewrite !PauseTrackingProofs.tracker_run_cons. simpl. by destruct i. }
  rewrite Hr. clear Hr.
  set (s3 := reset (on_pause t1 p2 (on_pause t0 p1 s).1).1).
  assert (Hne : Pos.succ (next_timer s) ≠ next_timer s) by lia.
  assert (Hpend : pending s3 =
            delete (Pos.succ (next_timer s))
              (<[Pos.succ (next_timer s):=t1 + 300]>
                 (<[next_timer s:=t0 + 300]> (pending s)))).
  { subst s3. unfold on_pause. rewrite Hs1, Hl. simpl. by rewrite Hs2, Hl. }
  assert (Hlook : pending s3 !! next_timer s = Some (t0 + 300)).
  { rewrite Hpend, lookup_delete_ne by done.
    rewrite lookup_insert_ne by done. apply lookup_insert_eq. }
  split; [done|]. split; [done|].
  split; [rewrite Hpend; apply lookup_delete_eq|].
  change (step t3 (timeout (next_timer s)) s3) with (fire t3 (next_timer s) s3).
  unfold fire. rewrite Hlook.
  assert (Hle : (t0 + 300 <=? t3) = true) by (apply Z.leb_le; lia).
  rewrite Hle. reflexivity.
Qed.

Lemma overlapped_pause_survives_teardown_witness :
  reachable init ∧ isSeeking idle_player = false ∧ is_reset loadstart = true ∧
  0 + 300 ≤ 300 ∧
  pending
    (run [(0, pause idle_player); (10, pause idle_player); (20, loadstart)]
       init).1 !! next_timer init = Some (0 + 300).
Proof.
  assert (Hr : reachable init) by (exists []; reflexivity).
  assert (H : 0 + 300 ≤ 300) by lia.
  split; [exact Hr|]. split; [reflexivity|]. split; [reflexivity|].
  split; [exact H|].
  exact (proj1 (proj2
    (overlapped_pause_survives_teardown init idle_player idle_player
       0 10 20 300 loadstart Hr eq_refl eq_refl eq_refl H))).
Defined.

End PauseTrackingLifecycle.

(* ===================================================================== *)
(** * What the tracker's derived events add up to *)
(* ===================================================================== *)

Module PauseTrackingCounters.
Import PauseTracking.

Lemma tracker_run_app tr1 : ∀ tr2 s,
  run (tr1 ++ tr2) s =
  ((run tr2 (run tr1 s).1).1, (run tr1 s).2 ++ (run tr2 (run tr1 s).1).2).
Proof.
  induction tr1 as [|[now i] tr1 IH]; intros tr2 s.
  - simpl. by destruct (run tr2 s).
  - rewrite <- app_comm_cons, !PauseTrackingProofs.tracker_run_cons, IH.
    simpl. by rewrite app_assoc.
Qed.

(** What a step that is no reset does to [pauseCount]: nothing, or one more
    with a [tracking:pause] that carries the new count. *)
Lemma count_step now i s :
  is_reset i = false →
  (pauseCount (step now i s).1 = pauseCount s ∧
   confirmations (step now i s).2 = []) ∨
  (pauseCount (step now i s).1 = pauseCount s + 1 ∧
   confirmations (step now i s).2 = [pauseCount s + 1]).
Proof.
  intros Hi. destruct i; try discriminate Hi; simpl.
  - left. unfold on_play. by destruct (initPauseTime s).
  - left. unfold on_pause. by destruct (isSeeking player || locked s).
  - unfold fire. destruct (pending s !! id) as [due|]; [|by left].
    destruct (due <=? now); [by right | by left].
Qed.

(** X4: between resets, [pauseCount] counts the [tracking:pause] events
    emitted: over a trace without [dispose], [loadstart] or [ended] it grows
    by their number, and their payloads carry consecutive counts, starting
    one above the count the trace started from. *)
Theorem pause_count_counts_confirmations (tr : list (Z * Input)) (s : Tracker) :
  forallb (λ e, negb (is_reset e.2)) tr = true →
  let r := run tr s in
  let n := Z.of_nat (length (confirmations r.2)) in
  pauseCount r.1 = pauseCount s + n ∧
  confirmations r.2 = seqZ (pauseCount s + 1) n.
Proof.
  revert s. induction tr as [|[now i] tr IH]; intros s Hall.
  - simpl. split; [lia | done].
  - simpl in Hall. apply andb_true_iff in Hall as [Hi Hall].
    apply negb_true_iff in Hi.
    rewrite PauseTrackingProofs.tracker_run_cons. cbn [fst snd].
    unfold confirmations in *. rewrite omap_app, length_app.
    destruct (IH (step now i s).1 Hall) as [IHc IHl]. cbn zeta in IHc, IHl.
    destruct (count_step now i s Hi) as [[Hc Hout] | [Hc Hout]];
      unfold confirmations in Hout; rewrite Hout; cbn [length app Nat.add].
    + rewrite IHc, Hc. split; [done|]. by rewrite IHl at 1; rewrite Hc.
    + rewrite IHc, Hc. split; [lia|].
      rewrite Nat2Z.inj_succ, seqZ_cons by lia. f_equal.
      rewrite IHl at 1. rewrite Hc. f_equal; lia.
Qed.

Lemma pause_count_counts_confirmations_witness :
  forallb (λ e : Z * Input, negb (is_reset e.2))
    [(0, pause idle_player); (300, timeout 1%positive); (2000, play);
     (5000, pause idle_player); (5300, timeout 2%positive)] = true ∧
  confirmations
    (run [(0, pause idle_player); (300, timeout 1%positive); (2000, play);
          (5000, pause idle_player); (5300, timeout 2%positive)] init).2
  = seqZ (pauseCount init + 1)
      (Z.of_nat (length (confirmations
         (run [(0, pause idle_player); (300, timeout 1%positive); (2000, play);
               (5000, pause idle_player); (5300, timeout 2%positive)]
            init).2))).
Proof.
  split; [reflexivity|].
  exact (proj2 (pause_count_counts_confirmations
    [(0, pause idle_player); (300, timeout 1%positive); (2000, play);
     (5000, pause idle_player); (5300, timeout 2%positive)] init eq_refl)).
Defined.

(** ** Pairing of the derived events *)

Lemma paired_run tr : ∀ s prev,
  (∀ t0, initPauseTime s = Some t0 →
     ∃ d, prev = Some d ∧ data_pauseCount d = pauseCount s) →
  paired prev (history tr s) = true.
Proof.
  induction tr as [|[now i] tr IH]; intros s prev Hinv; [done|].
  cbn [history]. destruct i; cbn [step is_reset].
  1-3: cbn; apply IH; by intros t0 H.
  - unfold on_play. destruct (initPauseTime s) as [t0|] eqn:E.
    + destruct (Hinv t0 eq_refl) as (d & -> & Hd). cbn.
      rewrite Hd, Z.eqb_refl. cbn. apply IH. by intros t1 H.
    + cbn. apply IH. by rewrite E.
  - unfold on_pause. destruct (isSeeking player || locked s); cbn; by apply IH.
  - unfold fire. destruct (pending s !! id) as [due|]; [|cbn; by apply IH].
    destruct (due <=? now); [|cbn; by apply IH].
    cbn. apply IH. cbn. intros t0 _. by eexists.
Qed.

Lemma history_derived tr : ∀ s, derived_events (history tr s) = (run tr s).2.
Proof.
  induction tr as [|[now i] tr IH]; intros s; [done|].
  rewrite PauseTrackingProofs.tracker_run_cons. cbn [history snd].
  unfold derived_events in *. rewrite !omap_app, IH.
  assert (Hmark : omap (λ e, match e with
                             | derived t => Some t
                             | teardown => None
                             end)
                    (if is_reset i then [teardown] else []) = []).
  { by destruct (is_reset i). }
  rewrite Hmark. cbn [app]. f_equal.
  induction (step now i s).2 as [|t out IHout]; [done|].
  cbn. by rewrite IHout.
Qed.

(** X5: take any run from construction and list, in order, its teardowns
    ([dispose], [loadstart], [ended]) and the derived events it emitted,
    which are the events of the run.  In that list every [tracking:unpause]
    comes directly after a [tracking:pause] that carries the same
    [pauseCount]: no unpause without a confirmed pause, none once a
    teardown has come between, and never two in a row. *)
Theorem unpause_follows_pause (tr : list (Z * Input)) :
  paired None (history tr init) = true ∧
  derived_events (history tr init) = (run tr init).2.
Proof.
  split; [|apply history_derived]. apply paired_run. by intros t0 H.
Qed.

(** ** Pause time under a clock that does not go back *)

Lemma elapsed_nonneg (t0 now : Z) :
  t0 ≤ now → (0 <= inject_Z (now - t0) / inject_Z 1000)%Q.
Proof.
  intros H. apply Qle_shift_div_l; [reflexivity|]. rewrite Qmult_0_l.
  change 0%Q with (inject_Z 0). rewrite <- Zle_Qle. lia.
Qed.

Lemma pause_time_step T now i s :
  (∀ t0, initPauseTime s = Some t0 → t0 ≤ T) → T ≤ now →
  (∀ t0, initPauseTime (step now i s).1 = Some t0 → t0 ≤ now) ∧
  ((0 <= pauseTime s)%Q → (0 <= pauseTime (step now i s).1)%Q) ∧
  (is_reset i = false → (pauseTime s <= pauseTime (step now i s).1)%Q).
Proof.
  intros Hinv Hnow. destruct i; cbn [step is_reset].
  1-3: split; [by intros t0 H|]; split; [intros _; apply Qle_refl | done].
  - unfold on_play. destruct (initPauseTime s) as [t0|] eqn:E; cbn [fst].
    + pose proof (elapsed_nonneg t0 now ltac:(specialize (Hinv t0 eq_refl); lia))
        as Hel.
      split; [by intros t1 H|]. cbn [pauseTime]. split.
      * intros H0. rewrite <- (Qplus_0_r 0). by apply Qplus_le_compat.
      * intros _. rewrite <- (Qplus_0_r (pauseTime s)) at 1.
        apply Qplus_le_compat; [apply Qle_refl | done].
    + split. { intros t0 H. rewrite E in H. discriminate. }
      split; [done|]. intros _. apply Qle_refl.
  - unfold on_pause. destruct (isSeeking player || locked s); cbn [fst].
    + split. { intros t0 H. apply Hinv in H. lia. }
      split; [done|]. intros _. apply Qle_refl.
    + cbn. split. { intros t0 H. apply Hinv in H. lia. }
      split; [done|]. intros _. apply Qle_refl.
  - unfold fire. destruct (pending s !! id) as [due|].
    2: { split. { intros t0 H. apply Hinv in H. lia. }
         split; [done|]. intros _. apply Qle_refl. }
    destruct (due <=? now).
    2: { split. { intros t0 H. apply Hinv in H. lia. }
         split; [done|]. intros _. apply Qle_refl. }
    cbn. split. { intros t0 [= <-]. lia. }
    split; [done|]. intros _. apply Qle_refl.
Qed.

Lemma pause_time_run tr : ∀ T s,
  (∀ t0, initPauseTime s = Some t0 → t0 ≤ T) →
  chronological T tr = true →
  ((0 <= pauseTime s)%Q → (0 <= pauseTime (run tr s).1)%Q) ∧
  (forallb (λ e, negb (is_reset e.2)) tr = true →
     (pauseTime s <= pauseTime (run tr s).1)%Q) ∧
  ∃ T', T ≤ T' ∧ (∀ t0, initPauseTime (run tr s).1 = Some t0 → t0 ≤ T') ∧
        ∀ tr', chronological T (tr ++ tr') = true → chronological T' tr' = true.
Proof.
  induction tr as [|[now i] tr IH]; intros T s Hinv Hchr.
  - simpl. split; [done|]. split; [intros _; apply Qle_refl|].
    exists T. split; [lia|]. done.
  - simpl in Hchr. apply andb_true_iff in Hchr as [Hle Hchr].
    apply Z.leb_le in Hle.
    destruct (pause_time_step T now i s Hinv Hle) as (H1 & H2 & H3).
    destruct (IH now (step now i s).1 H1 Hchr) as (G1 & G2 & T' & HT & G3 & G4).
    rewrite PauseTrackingProofs.tracker_run_cons. cbn [fst]. split; [auto|].
    split.
    + intros Hall. simpl in Hall. apply andb_true_iff in Hall as [Hi Hall].
      apply negb_true_iff in Hi. eapply Qle_trans; [by apply H3 | by apply G2].
    + exists T'. split; [lia|]. split; [done|].
      intros tr' Hc. simpl in Hc. apply andb_true_iff in Hc as [_ Hc]. auto.
Qed.

(** X6: when the clock readings of a run from construction never go back,
    [pauseTime] is never negative, and it does not decrease over any stretch
    of the run that contains no [dispose], [loadstart] or [ended]. *)
Theorem pause_time_never_decreases (T : Z) (tr1 tr2 : list (Z * Input)) :
  chronological T (tr1 ++ tr2) = true →
  (0 <= pauseTime (run (tr1 ++ tr2) init).1)%Q ∧
  (forallb (λ e, negb (is_reset e.2)) tr2 = true →
     (pauseTime (run tr1 init).1 <= pauseTime (run (tr1 ++ tr2) init).1)%Q).
Proof.
  intros Hchr.
  assert (Hinit : ∀ t0, initPauseTime init = Some t0 → t0 ≤ T) by done.
  split.
  - destruct (pause_time_run (tr1 ++ tr2) T init Hinit Hchr) as (H & _).
    apply H, Qle_refl.
  - intros Hall. rewrite tracker_run_app. cbn [fst].
    assert (Hchr1 : chronological T tr1 = true).
    { clear -Hchr. revert T Hchr.
      induction tr1 as [|[now i] tr1 IH]; intros T H; [done|].
      simpl in *. apply andb_true_iff in H as [H1 H2].
      rewrite H1. simpl. by apply IH. }
    destruct (pause_time_run tr1 T init Hinit Hchr1)
      as (_ & _ & T' & _ & Hinv' & Hrest).
    destruct (pause_time_run tr2 T' _ Hinv' (Hrest tr2 Hchr)) as (_ & H & _).
    by apply H.
Qed.

Lemma pause_time_never_decreases_witness :
  chronological 0
    ([(0, pause idle_player); (300, timeout 1%positive)] ++
     [(2000, play)]) = true ∧
  Qle
    (pauseTime
       (run [(0, pause idle_player); (300, timeout 1%positive)] init).1)
    (pauseTime
       (run ([(0, pause idle_player); (300, timeout 1%positive)] ++
             [(2000, play)]) init).1).
Proof.
  split; [reflexivity|].
  exact (proj2 (pause_time_never_decreases 0
    [(0, pause idle_player); (300, timeout 1%positive)] [(2000, play)]
    eq_refl) eq_refl).
Defined.

End PauseTrackingCounters.

(* ===================================================================== *)
(** * Further properties of the performance aggregator *)
(* ===================================================================== *)

Module PerformanceTrackingHandlers.
Import PerformanceTracking.

(** ** Rounding *)

Lemma toFixed0_nearest (x : Q) :
  (inject_Z (toFixed0 x) - (1 # 2) <= x)%Q ∧
  (x <= inject_Z (toFixed0 x) + (1 # 2))%Q.
Proof.
  unfold toFixed0. destruct (Qle_bool 0 x).
  - pose proof (Qfloor_le (x + (1 # 2))) as H1.
    pose proof (Qlt_floor (x + (1 # 2))) as H2.
    rewrite inject_Z_plus in H2. change (inject_Z 1) with 1%Q in H2.
    split; lra.
  - pose proof (Qfloor_le (- x + (1 # 2))) as H1.
    pose proof (Qlt_floor (- x + (1 # 2))) as H2.
    rewrite inject_Z_plus in H2. change (inject_Z 1) with 1%Q in H2.
    rewrite inject_Z_opp. split; lra.
Qed.

Lemma Qfloor_between (y : Q) (k : Z) :
  (inject_Z k <= y)%Q → (y < inject_Z k + 1)%Q → Qfloor y = k.
Proof.
  intros H1 H2.
  pose proof (Qfloor_le y) as H3. pose proof (Qlt_floor y) as H4.
  rewrite inject_Z_plus in H4. change (inject_Z 1) with 1%Q in H4.
  assert (Ha : (inject_Z k < inject_Z (Qfloor y) + 1)%Q) by lra.
  assert (Hb : (inject_Z (Qfloor y) < inject_Z k + 1)%Q) by lra.
  change 1%Q with (inject_Z 1) in Ha, Hb.
  rewrite <- inject_Z_plus in Ha, Hb. rewrite <- Zlt_Qlt in Ha, Hb. lia.
Qed.

Lemma toFixed0_unique (x : Q) (k : Z) :
  (0 <= x)%Q → (inject_Z k - (1 # 2) <= x)%Q → (x < inject_Z k + (1 # 2))%Q →
  toFixed0 x = k.
Proof.
  intros H0 H1 H2. unfold toFixed0.
  assert (Hpos : Qle_bool 0 x = true) by by apply Qle_bool_iff.
  rewrite Hpos. apply Qfloor_between; lra.
Qed.


Lemma Qtrunc_quotient (a n : Z) (q : Q) :
  0 ≤ a → 0 < n → (q == inject_Z n)%Q → Qtrunc (inject_Z a / q) = a / n.
Proof.
  intros Ha Hn Hq. unfold Qtrunc.
  assert (Hpos : Qle_bool 0 (inject_Z a / q) = true).
  { apply Qle_bool_iff. rewrite Hq. apply Qle_shift_div_l.
    - change 0%Q with (inject_Z 0). by rewrite <- Zlt_Qlt.
    - rewrite Qmult_0_l. change 0%Q with (inject_Z 0). by rewrite <- Zle_Qle. }
  rewrite Hpos, Hq. by rewrite <- Zdiv_Qdiv.
Qed.

(** [a % n === 0] for a non-negative integer [a] and a positive integer [n]
    is divisibility. *)
Lemma is_zero_rem_positive (a n : Z) (q : Q) :
  0 ≤ a → 0 < n → (q == inject_Z n)%Q →
  is_zero (rem a (Fin q)) = (a mod n =? 0).
Proof.
  intros Ha Hn Hq. unfold rem.
  assert (Hnz : Qeq_bool q 0 = false).
  { apply not_true_iff_false. intros H. apply Qeq_bool_eq in H.
    rewrite Hq in H. unfold Qeq in H. simpl in H. lia. }
  rewrite Hnz. simpl. rewrite (Qtrunc_quotient a n) by done. rewrite Hq.
  pose proof (Z.div_mod a n ltac:(lia)) as Hdm.
  assert (Heq : (inject_Z a - inject_Z n * inject_Z (a / n)
                 == inject_Z (a mod n))%Q).
  { rewrite <- inject_Z_mult. unfold Qminus. rewrite <- inject_Z_opp.
    rewrite <- inject_Z_plus. apply inject_Z_injective. lia. }
  rewrite Heq. destruct (a mod n =? 0) eqn:E.
  - apply Z.eqb_eq in E. rewrite E. reflexivity.
  - apply Z.eqb_neq in E. apply not_true_iff_false. intros H.
    apply Qeq_bool_eq in H. unfold Qeq in H. simpl in H. lia.
Qed.

Section Plugin.

Variable v4 : nat → string.
Variable player : nat.
Variable window_addEventListener : bool.
Variable opts : Options.

Local Abbreviation init := (init v4 window_addEventListener).
Local Abbreviation reset := (reset v4).
Local Abbreviation trigger := (trigger player opts).
Local Abbreviation handle := (handle v4 player window_addEventListener opts).
Local Abbreviation run := (run v4 player window_addEventListener opts).
Local Abbreviation reachable := (reachable v4 player window_addEventListener opts).

(** ** The interval flush for any interval *)

(** X7: with a positive whole number [n] of seconds as [triggerInterval], a
    [timeupdate] that records a new second-mark sets [watchedDuration] to
    the number of marks, one more than before.  When that number is a
    multiple of [n] it invokes [config.performance] once, on the player,
    with the snapshot in which [watchedDuration] is already the new number
    and every other entry is as it was; when it is not, it invokes
    nothing. *)
Theorem interval_flush_divisibility (s : State) (x q : Q) (n : Z) :
  triggerInterval opts = Fin q → (q == inject_Z n)%Q → 0 < n →
  toFixed0 x ∉ timestamps s →
  let r := handle (timeupdate x) s in
  let watched := Z.of_nat (length (timestamps s)) + 1 in
  watchedDuration r.1 = watched ∧
  r.2 =
    if watched mod n =? 0
    then [ {| callee := performance opts;
              this_arg := player;
              argument :=
                [ ("session", VString (session s));
                  ("pauseTime", VNumber (Fin (pauseTime s)));
                  ("pauseCount", VNumber (Fin (inject_Z (pauseCount s))));
                  ("seekCount", VNumber (Fin (inject_Z (seekCount s))));
                  ("bufferCount", VNumber (Fin (inject_Z (bufferCount s))));
                  ("totalDuration", VNumber (totalDuration s));
                  ("watchedDuration", VNumber (Fin (inject_Z watched)));
                  ("bufferDuration", VNumber (Fin (bufferDuration s)));
                  ("initialLoadTime", VNumber (Fin (initialLoadTime s)))
                ]%string |} ]
    else [].
Proof.
  intros Hq Hqn Hn Hnew r watched.
  apply PerformanceTrackingProofs.indexOf_absent in Hnew.
  assert (Hlen : Z.of_nat (length (timestamps s ++ [toFixed0 x])) = watched).
  { subst watched. rewrite length_app. cbn [length]. lia. }
  subst r. cbn [PerformanceTracking.handle]. unfold on_timeupdate.
  rewrite Hnew, Hq, (is_zero_rem_positive _ n) by (done || lia).
  cbn zeta. rewrite !Hlen. by destruct (watched mod n =? 0).
Qed.

(** X8: when [triggerInterval] is 0, [NaN] or infinite, no [timeupdate]
    ever invokes the callback: the remainder is [NaN], or the positive
    [watchedDuration] itself, never 0. *)
Theorem degenerate_interval_never_flushes (s : State) (x : Q) :
  triggerInterval opts = NaN ∨ triggerInterval opts = PosInfinity ∨
  triggerInterval opts = NegInfinity ∨
  (∃ q, triggerInterval opts = Fin q ∧ (q == 0)%Q) →
  (handle (timeupdate x) s).2 = [].
Proof.
  intros H. cbn [PerformanceTracking.handle]. unfold on_timeupdate.
  destruct (indexOf (toFixed0 x) (timestamps s) <? 0); [|done].
  assert (Hnz : is_zero
            (rem (Z.of_nat (length (timestamps s ++ [toFixed0 x])))
               (triggerInterval opts)) = false).
  { assert (Hinf : Qeq_bool
              (inject_Z (Z.of_nat (length (timestamps s ++ [toFixed0 x])))) 0
              = false).
    { apply not_true_iff_false. intros E. apply Qeq_bool_eq in E.
      unfold Qeq in E. simpl in E. rewrite length_app in E. simpl in E. lia. }
    destruct H as [-> | [-> | [-> | (q & -> & Hq)]]]; simpl; try done.
    assert (Hz : Qeq_bool q 0 = true) by by apply Qeq_bool_iff.
    by rewrite Hz. }
  by rewrite Hnz.
Qed.

(** ** Which second a position counts for *)

(** X9: a [timeupdate] at a position [x >= 0] records the whole second [k]
    with [k - 1/2 <= x < k + 1/2]: afterwards [k] is among the watched
    seconds; if it already was, nothing changes and nothing is delivered;
    if it was not, it is appended. *)
Theorem timeupdate_records_nearest_second (s : State) (x : Q) (k : Z) :
  (0 <= x)%Q → (inject_Z k - (1 # 2) <= x)%Q → (x < inject_Z k + (1 # 2))%Q →
  let r := handle (timeupdate x) s in
  k ∈ timestamps r.1 ∧
  (k ∈ timestamps s → r = (s, [])) ∧
  (k ∉ timestamps s → timestamps r.1 = timestamps s ++ [k]).
Proof.
  intros H0 H1 H2 r.
  pose proof (toFixed0_unique x k H0 H1 H2) as Hk.
  assert (Hstate : r.1 = (on_timeupdate player opts x s).1) by done.
  rewrite PerformanceTrackingProofs.on_timeupdate_state, Hk in Hstate.
  split; [|split].
  - rewrite Hstate. destruct (indexOf k (timestamps s) <? 0) eqn:E.
    + simpl. apply elem_of_app. right. by apply list_elem_of_singleton.
    + by apply PerformanceTrackingProofs.indexOf_present.
  - intros Hin. apply PerformanceTrackingProofs.indexOf_present in Hin.
    subst r. cbn [PerformanceTracking.handle]. unfold on_timeupdate.
    by rewrite Hk, Hin.
  - intros Hnew. apply PerformanceTrackingProofs.indexOf_absent in Hnew.
    by rewrite Hstate, Hnew.
Qed.

(** ** Reloading with and without a known duration *)


End Plugin.

(** An aggregator that flushes every third watched second, at its third. *)
Lemma interval_flush_divisibility_witness :
  triggerInterval
    {| performance := VFunction 0; triggerOnPause := true;
       triggerInterval := Fin (inject_Z 3) |} = Fin (inject_Z 3) ∧
  (inject_Z 3 == inject_Z 3)%Q ∧ 0 < 3 ∧
  (toFixed0 (9 # 4)
     ∉ timestamps
         (on_timeupdate 1
            {| performance := VFunction 0; triggerOnPause := true;
               triggerInterval := Fin (inject_Z 3) |} (5 # 4)
            (on_timeupdate 1
               {| performance := VFunction 0; triggerOnPause := true;
                  triggerInterval := Fin (inject_Z 3) |} (1 # 4)
               sample_init).1).1) ∧
  (handle sample_v4 1 true
     {| performance := VFunction 0; triggerOnPause := true;
        triggerInterval := Fin (inject_Z 3) |} (timeupdate (9 # 4))
     (on_timeupdate 1
        {| performance := VFunction 0; triggerOnPause := true;
           triggerInterval := Fin (inject_Z 3) |} (5 # 4)
        (on_timeupdate 1
           {| performance := VFunction 0; triggerOnPause := true;
              triggerInterval := Fin (inject_Z 3) |} (1 # 4)
           sample_init).1).1).2
  = [ {| callee := VFunction 0;
         this_arg := 1%nat;
         argument :=
           [ ("session", VString "x");
             ("pauseTime", VNumber (Fin 0));
             ("pauseCount", VNumber (Fin (inject_Z 0)));
             ("seekCount", VNumber (Fin (inject_Z 0)));
             ("bufferCount", VNumber (Fin (inject_Z 0)));
             ("totalDuration", VNumber (Fin 0));
             ("watchedDuration", VNumber (Fin (inject_Z 3)));
             ("bufferDuration", VNumber (Fin 0));
             ("initialLoadTime", VNumber (Fin 0)) ]%string |} ].
Proof.
  assert (Hnew : toFixed0 (9 # 4)
     ∉ timestamps
         (on_timeupdate 1
            {| performance := VFunction 0; triggerOnPause := true;
               triggerInterval := Fin (inject_Z 3) |} (5 # 4)
            (on_timeupdate 1
               {| performance := VFunction 0; triggerOnPause := true;
                  triggerInterval := Fin (inject_Z 3) |} (1 # 4)
               sample_init).1).1).
  { apply PerformanceTrackingProofs.indexOf_absent. reflexivity. }
  assert (Hq : (inject_Z 3 == inject_Z 3)%Q) by reflexivity.
  assert (Hn : 0 < 3) by reflexivity.
  split; [reflexivity|]. split; [exact Hq|]. split; [exact Hn|].
  split; [exact Hnew|].
  exact (proj2
    (interval_flush_divisibility sample_v4 1 true
       {| performance := VFunction 0; triggerOnPause := true;
          triggerInterval := Fin (inject_Z 3) |}
       _ (9 # 4) (inject_Z 3) 3 eq_refl Hq Hn Hnew)).
Defined.

Lemma degenerate_interval_never_flushes_witness :
  (triggerInterval
     {| performance := VFunction 0; triggerOnPause := true;
        triggerInterval := NaN |} = NaN ∨
   triggerInterval
     {| performance := VFunction 0; triggerOnPause := true;
        triggerInterval := NaN |} = PosInfinity ∨
   triggerInterval
     {| performance := VFunction 0; triggerOnPause := true;
        triggerInterval := NaN |} = NegInfinity ∨
   (∃ q, triggerInterval
           {| performance := VFunction 0; triggerOnPause := true;
              triggerInterval := NaN |} = Fin q ∧ (q == 0)%Q)) ∧
  (handle sample_v4 1 true
     {| performance := VFunction 0; triggerOnPause := true;
        triggerInterval := NaN |} (timeupdate (1 # 4)) sample_init).2 = [].
Proof.
  split; [left; reflexivity|].
  exact (degenerate_interval_never_flushes sample_v4 1 true
    {| performance := VFunction 0; triggerOnPause := true;
       triggerInterval := NaN |} sample_init (1 # 4) (or_introl eq_refl)).
Defined.

Lemma timeupdate_records_nearest_second_witness :
  Qle 0 (37 # 4) ∧ Qle (inject_Z 9 - (1 # 2)) (37 # 4) ∧
  Qlt (37 # 4) (inject_Z 9 + (1 # 2)) ∧
  9 ∈ timestamps
        (handle sample_v4 1 true sample_options (timeupdate (37 # 4))
           sample_init).1.
Proof.
  assert (H0 : Qle 0 (37 # 4)) by (vm_compute; discriminate).
  assert (H1 : Qle (inject_Z 9 - (1 # 2)) (37 # 4))
    by (vm_compute; discriminate).
  assert (H2 : Qlt (37 # 4) (inject_Z 9 + (1 # 2))) by reflexivity.
  split; [exact H0|]. split; [exact H1|]. split; [exact H2|].
  exact (proj1
    (timeupdate_records_nearest_second sample_v4 1 true sample_options
       sample_init (37 # 4) 9 H0 H1 H2)).
Defined.


End PerformanceTrackingHandlers.

(* ===================================================================== *)
(** * Sessions, the unload listener and the adopted fields *)
(* ===================================================================== *)

Module PerformanceTrackingSessions.
Import PerformanceTracking.

Lemma toFixed3_error (x : Q) :
  (toFixed3 x - (1 # 2000) <= x)%Q ∧ (x <= toFixed3 x + (1 # 2000))%Q.
Proof.
  destruct (PerformanceTrackingHandlers.toFixed0_nearest (x * inject_Z 1000))
    as [H1 H2].
  assert (E : (toFixed3 x
               == inject_Z (toFixed0 (x * inject_Z 1000)) * (1 # 1000))%Q)
    by reflexivity.
  rewrite E. clear E.
  set (k := inject_Z (toFixed0 (x * inject_Z 1000))) in *.
  change (inject_Z 1000) with 1000%Q in H1, H2. split; lra.
Qed.

Lemma toFixed0_integer (x : Q) (z : Z) : (x == inject_Z z)%Q → toFixed0 x = z.
Proof.
  intros H. unfold toFixed0. rewrite !H. destruct (Qle_bool 0 (inject_Z z)) eqn:E.
  - apply PerformanceTrackingHandlers.Qfloor_between; lra.
  - assert (Hf : Qfloor (- inject_Z z + (1 # 2)) = - z).
    { apply PerformanceTrackingHandlers.Qfloor_between;
        rewrite inject_Z_opp; lra. }
    lia.
Qed.

Section Plugin.

Variable v4 : nat → string.
Variable player : nat.
Variable window_addEventListener : bool.
Variable opts : Options.

Local Abbreviation init := (init v4 window_addEventListener).
Local Abbreviation reset := (reset v4).
Local Abbreviation trigger := (trigger player opts).
Local Abbreviation handle := (handle v4 player window_addEventListener opts).
Local Abbreviation run := (run v4 player window_addEventListener opts).
Local Abbreviation reachable := (reachable v4 player window_addEventListener opts).

(** ** The [beforeunload] listener *)

Lemma listener_step e s :
  beforeunload_listener (handle e s).1 = true → beforeunload_listener s = true.
Proof.
  destruct e; simpl; try done.
  - destruct (beforeunload_listener s) eqn:E; [done|]. simpl. congruence.
  - by destruct window_addEventListener.
  - rewrite PerformanceTrackingProofs.on_timeupdate_state.
    by destruct (_ <? 0).
  - unfold on_tracking_pause. by destruct (triggerOnPause opts).
Qed.

Lemma listener_run evs : ∀ s,
  beforeunload_listener (run evs s).1 = true → beforeunload_listener s = true.
Proof.
  induction evs as [|e evs IH]; intros s H; [done|].
  rewrite PerformanceTrackingProofs.aggregator_run_cons in H. cbn [fst] in H.
  apply IH in H. by apply listener_step in H.
Qed.

Lemma listener_needs_window s :
  reachable s → beforeunload_listener s = true →
  window_addEventListener = true.
Proof. intros [evs <-] H. by apply listener_run in H. Qed.

Lemma dispose_detaches s :
  reachable s → beforeunload_listener (handle dispose s).1 = false.
Proof.
  intros Hr. pose proof (listener_needs_window s Hr) as Hw.
  apply not_true_iff_false. intros H. cbn in H.
  destruct window_addEventListener; [done|]. by apply Hw in H.
Qed.

(** X11: the [beforeunload] listener is attached at most once, at
    construction, and only when the window can listen.  Once the player is
    disposed it is detached for good: whatever events follow, a page unload
    neither invokes the callback nor resets the session.  On a window that
    cannot listen, a page unload never does. *)
Theorem unload_listener_lifecycle (s : State) (evs : list Event) :
  reachable s →
  let s' := (run evs (handle dispose s).1).1 in
  handle beforeunload s' = (s', []) ∧
  (window_addEventListener = false → handle beforeunload s = (s, [])).
Proof.
  intros Hr.
  assert (Hnoop : ∀ s0, beforeunload_listener s0 = false →
            handle beforeunload s0 = (s0, [])).
  { intros s0 H. simpl. by rewrite H. }
  split.
  - apply Hnoop, not_true_iff_false. intros E. apply listener_run in E.
    by rewrite dispose_detaches in E.
  - intros W. apply Hnoop, not_true_iff_false. intros E.
    apply (listener_needs_window s Hr) in E. congruence.
Qed.

(** ** Session identifiers *)

Lemma session_step e s :
  (resets e s = false →
     session (handle e s).1 = session s ∧ v4_calls (handle e s).1 = v4_calls s) ∧
  (resets e s = true →
     session (handle e s).1 = v4 (v4_calls s) ∧
     v4_calls (handle e s).1 = S (v4_calls s)).
Proof.
  destruct e; simpl; split; try done.
  - by intros ->.
  - by intros ->.
  - by destruct window_addEventListener.
  - intros _. rewrite PerformanceTrackingProofs.on_timeupdate_state.
    by destruct (_ <? 0).
  - intros _. unfold on_tracking_pause. by destruct (triggerOnPause opts).
Qed.

Lemma session_run evs : ∀ s,
  session s = v4 (Nat.pred (v4_calls s)) → (1 ≤ v4_calls s)%nat →
  session (run evs s).1 = v4 (Nat.pred (v4_calls (run evs s).1)) ∧
  (1 ≤ v4_calls (run evs s).1)%nat.
Proof.
  induction evs as [|e evs IH]; intros s Hs Hc; [done|].
  rewrite PerformanceTrackingProofs.aggregator_run_cons. cbn [fst].
  destruct (session_step e s) as [Hkeep Hnew].
  destruct (resets e s).
  - destruct (Hnew eq_refl) as [H1 H2]. apply IH; rewrite ?H1, H2; [done|lia].
  - destruct (Hkeep eq_refl) as [H1 H2]. apply IH; by rewrite ?H1, H2.
Qed.

(** X12: the session identifier changes exactly when a handler resets: an
    event that does not reset keeps it, and one that resets draws the next
    identifier from [v4] after delivering, if it delivers, under the old
    one.  When [v4] never repeats itself the new identifier differs from
    the one it replaces. *)
Theorem session_changes_exactly_at_reset (s : State) (e : Event) :
  reachable s →
  (resets e s = false → session (handle e s).1 = session s) ∧
  (resets e s = true →
     session (handle e s).1 = v4 (v4_calls s) ∧
     (∀ c, c ∈ (handle e s).2 →
        argument c !! 0%nat = Some ("session"%string, VString (session s))) ∧
     (Inj (=) (=) v4 → session (handle e s).1 ≠ session s)).
Proof.
  intros [evs <-].
  destruct (session_run evs init eq_refl ltac:(simpl; lia)) as [Hs Hc].
  set (s := (run evs init).1) in *.
  destruct (session_step e s) as [Hkeep Hnew].
  split; [intros H; by apply Hkeep|].
  intros Hr. destruct (Hnew Hr) as [H1 _]. split; [done|]. split.
  - intros c Hin. destruct e; try discriminate Hr; simpl in *.
    + rewrite Hr in Hin. by apply list_elem_of_singleton in Hin as ->.
    + unfold on_loadstart in Hin. simpl in Hin.
      destruct (gt0 (totalDuration s)); [|by apply not_elem_of_nil in Hin].
      by apply list_elem_of_singleton in Hin as ->.
    + by apply list_elem_of_singleton in Hin as ->.
    + destruct window_addEventListener;
        by apply list_elem_of_singleton in Hin as ->.
  - intros Hinj. rewrite H1, Hs. intros E. apply Hinj in E. lia.
Qed.

(** ** Buffering *)

(** X13: [tracking:buffered] adopts the payload's [bufferCount] and adds
    its [secondsToLoad] to [bufferDuration] rounded to a whole number of
    milliseconds: the stored value is within half a millisecond of the sum,
    and adding zero seconds to a value that is already a whole number of
    milliseconds leaves it unchanged. *)
Theorem buffer_duration_rounding (s : State) (n : Z) (t : Q) :
  let s' := (handle (tracking_buffered n t) s).1 in
  bufferCount s' = n ∧
  (∃ z, bufferDuration s' = (inject_Z z / inject_Z 1000)%Q) ∧
  (bufferDuration s' - (1 # 2000) <= bufferDuration s + t)%Q ∧
  (bufferDuration s + t <= bufferDuration s' + (1 # 2000))%Q ∧
  (∀ z, (bufferDuration s == inject_Z z / inject_Z 1000)%Q → (t == 0)%Q →
     (bufferDuration s' == bufferDuration s)%Q).
Proof.
  cbn. split; [done|]. split; [by eexists|].
  destruct (toFixed3_error (bufferDuration s + t)) as [H1 H2].
  split; [done|]. split; [done|].
  intros z Hz Ht. unfold toFixed3.
  rewrite (toFixed0_integer _ z); [by rewrite Hz|].
  rewrite Hz, Ht. change (inject_Z 1000) with 1000%Q. field.
Qed.

(** ** Which handler writes which field *)

(** Closes a goal whose context says the event at hand is not what it
    is. *)
Local Ltac contradict_writer :=
  exfalso;
  match goal with
  | H : ∀ x, _ ≠ _ |- _ => by eapply H
  | H : ∀ x y, _ ≠ _ |- _ => by eapply H
  end.

(** Splits a statement about writers into its cases and closes those that
    follow from the shape of the event. *)
Local Ltac settle_writers :=
  repeat first
    [ done | progress intros | progress simplify_eq | split
    | contradict_writer ].

(** X14: between resets every field has its own writers, and each writer
    stores what its event carries.  [tracking:seek] stores the payload's
    [seekCount], and no other event changes it; [tracking:buffered] stores
    the payload's [bufferCount], and no other event changes it or
    [bufferDuration]; [loadeddata] stores the rounded duration in
    [totalDuration], a finite one as the nearest whole number, and no other
    event changes it; [tracking:unpause] stores the payload's [pauseTime]
    and [pauseCount], [tracking:pause] stores the payload's [pauseCount]
    and not its [pauseTime], and no other event changes either; only
    [timeupdate] changes the watched seconds. *)
Theorem handlers_write_their_own_fields (s : State) (e : Event) :
  resets e s = false →
  let s' := (handle e s).1 in
  ((∀ n, e = tracking_seek n → seekCount s' = n) ∧
   ((∀ n, e ≠ tracking_seek n) → seekCount s' = seekCount s)) ∧
  ((∀ n t, e = tracking_buffered n t → bufferCount s' = n) ∧
   ((∀ n t, e ≠ tracking_buffered n t) →
      bufferCount s' = bufferCount s ∧ bufferDuration s' = bufferDuration s)) ∧
  ((∀ q, e = loadeddata (Fin q) →
      totalDuration s' = Fin (inject_Z (toFixed0 q))) ∧
   (∀ d, e = loadeddata d → (∀ q, d ≠ Fin q) → totalDuration s' = d) ∧
   ((∀ d, e ≠ loadeddata d) → totalDuration s' = totalDuration s)) ∧
  ((∀ t n, e = tracking_unpause t n → pauseTime s' = t ∧ pauseCount s' = n) ∧
   (∀ t n, e = tracking_pause t n →
      pauseTime s' = pauseTime s ∧ pauseCount s' = n) ∧
   ((∀ t n, e ≠ tracking_unpause t n) → (∀ t n, e ≠ tracking_pause t n) →
      pauseTime s' = pauseTime s ∧ pauseCount s' = pauseCount s)) ∧
  ((∀ x, e ≠ timeupdate x) →
     timestamps s' = timestamps s ∧ watchedDuration s' = watchedDuration s).
Proof.
  intros Hr.
  assert (Hcases : ∀ s' : State, s' = (handle e s).1 →
    ((∀ n, e = tracking_seek n → seekCount s' = n) ∧
     ((∀ n, e ≠ tracking_seek n) → seekCount s' = seekCount s)) ∧
    ((∀ n t, e = tracking_buffered n t → bufferCount s' = n) ∧
     ((∀ n t, e ≠ tracking_buffered n t) →
        bufferCount s' = bufferCount s ∧
        bufferDuration s' = bufferDuration s)) ∧
    ((∀ q, e = loadeddata (Fin q) →
        totalDuration s' = Fin (inject_Z (toFixed0 q))) ∧
     (∀ d, e = loadeddata d → (∀ q, d ≠ Fin q) → totalDuration s' = d) ∧
     ((∀ d, e ≠ loadeddata d) → totalDuration s' = totalDuration s)) ∧
    ((∀ t n, e = tracking_unpause t n →
        pauseTime s' = t ∧ pauseCount s' = n) ∧
     (∀ t n, e = tracking_pause t n →
        pauseTime s' = pauseTime s ∧ pauseCount s' = n) ∧
     ((∀ t n, e ≠ tracking_unpause t n) → (∀ t n, e ≠ tracking_pause t n) →
        pauseTime s' = pauseTime s ∧ pauseCount s' = pauseCount s)) ∧
    ((∀ x, e ≠ timeupdate x) →
       timestamps s' = timestamps s ∧
       watchedDuration s' = watchedDuration s)); [|by apply Hcases].
  intros s' ->.
  destruct e; try discriminate Hr; cbn [PerformanceTracking.handle fst].
  - simpl in Hr. rewrite Hr. cbn [fst]. settle_writers.
  - rewrite PerformanceTrackingProofs.on_timeupdate_state.
    destruct (_ <? 0); cbn; settle_writers.
  - cbn. settle_writers.
    match goal with H : ∀ q, _ ≠ Fin q |- _ => rename H into Hd end.
    destruct d; try done. by destruct (Hd q).
  - cbn. settle_writers.
  - unfold on_tracking_pause. destruct (triggerOnPause opts); cbn;
      settle_writers.
  - cbn. settle_writers.
  - cbn. settle_writers.
  - cbn. settle_writers.
Qed.

End Plugin.

Lemma unload_listener_lifecycle_witness :
  reachable sample_v4 1 true sample_options sample_init ∧
  handle sample_v4 1 true sample_options beforeunload
    (run sample_v4 1 true sample_options [timeupdate (1 # 4)]
       (handle sample_v4 1 true sample_options dispose sample_init).1).1
  = ((run sample_v4 1 true sample_options [timeupdate (1 # 4)]
        (handle sample_v4 1 true sample_options dispose sample_init).1).1, []).
Proof.
  assert (Hr : reachable sample_v4 1 true sample_options sample_init)
    by (exists []; reflexivity).
  split; [exact Hr|].
  exact (proj1
    (unload_listener_lifecycle sample_v4 1 true sample_options
       sample_init [timeupdate (1 # 4)] Hr)).
Defined.

Lemma session_changes_exactly_at_reset_witness :
  reachable sample_v4 1 true sample_options sample_init ∧
  resets ended sample_init = true ∧
  session (handle sample_v4 1 true sample_options ended sample_init).1
    = sample_v4 (v4_calls sample_init).
Proof.
  assert (Hr : reachable sample_v4 1 true sample_options sample_init)
    by (exists []; reflexivity).
  split; [exact Hr|]. split; [reflexivity|].
  exact (proj1 (proj2
    (session_changes_exactly_at_reset sample_v4 1 true sample_options
       sample_init ended Hr) eq_refl)).
Defined.

Lemma buffer_duration_rounding_witness :
  Qeq (bufferDuration
         (on_tracking_buffered 1 (1234 # 1000) sample_init))
      (inject_Z 1234 / inject_Z 1000) ∧
  Qeq 0 0 ∧
  Qeq (bufferDuration
         (handle sample_v4 1 true sample_options (tracking_buffered 2 0)
            (on_tracking_buffered 1 (1234 # 1000) sample_init)).1)
      (bufferDuration (on_tracking_buffered 1 (1234 # 1000) sample_init)).
Proof.
  assert (Hz : Qeq (bufferDuration
                      (on_tracking_buffered 1 (1234 # 1000) sample_init))
                   (inject_Z 1234 / inject_Z 1000)) by reflexivity.
  assert (H0 : Qeq 0 0) by reflexivity.
  split; [exact Hz|]. split; [exact H0|].
  exact (proj2 (proj2 (proj2 (proj2
    (buffer_duration_rounding sample_v4 1 true sample_options
       (on_tracking_buffered 1 (1234 # 1000) sample_init) 2 0))))
    1234 Hz H0).
Defined.

Lemma handlers_write_their_own_fields_witness :
  resets (tracking_seek 3) sample_init = false ∧
  tracking_seek 3 = tracking_seek 3 ∧
  seekCount
    (handle sample_v4 1 true sample_options (tracking_seek 3) sample_init).1
  = 3.
Proof.
  split; [reflexivity|]. split; [reflexivity|].
  exact (proj1 (proj1
    (handlers_write_their_own_fields sample_v4 1 true sample_options
       sample_init (tracking_seek 3) eq_refl)) 3 eq_refl).
Defined.

End PerformanceTrackingSessions.

(* ===================================================================== *)
(** * Properties of the two plugins together *)
(* ===================================================================== *)

Module PageProofs.
Import Page.

Section Plugins.

Variable v4 : nat → string.
Variable player : nat.
Variable window_addEventListener : bool.
Variable opts : PerformanceTracking.Options.

Local Abbreviation init := (init v4 window_addEventListener).
Local Abbreviation step := (step v4 player window_addEventListener opts).
Local Abbreviation run := (run v4 player window_addEventListener opts).

Lemma page_run_cons now i tr s :
  run ((now, i) :: tr) s =
  ((run tr (step now i s).1).1, (step now i s).2 ++ (run tr (step now i s).1).2).
Proof.
  cbn [Page.run]. destruct (step now i s) as [s1 calls1].
  cbn [fst snd]. destruct (run tr s1) as [s2 calls2]. reflexivity.
Qed.

Lemma counters_agree_step now i s :
  i ≠ beforeunload →
  PerformanceTracking.pauseCount (aggregator s)
    = PauseTracking.pauseCount (tracker s) ∧
  PerformanceTracking.pauseTime (aggregator s)
    = PauseTracking.pauseTime (tracker s) →
  PerformanceTracking.pauseCount (aggregator (step now i s).1)
    = PauseTracking.pauseCount (tracker (step now i s).1) ∧
  PerformanceTracking.pauseTime (aggregator (step now i s).1)
    = PauseTracking.pauseTime (tracker (step now i s).1).
Proof.
  intros Hi [Hc Ht]. unfold Page.step.
  destruct i; try done; cbn.
  - unfold PauseTracking.on_play.
    by destruct (PauseTracking.initPauseTime (tracker s)).
  - unfold PauseTracking.on_pause.
    by destruct (PauseTracking.isSeeking player0 || PauseTracking.locked (tracker s)).
  - unfold PauseTracking.fire.
    destruct (PauseTracking.pending (tracker s) !! id) as [due|]; [|done].
    destruct (due <=? now); [|done]. cbn.
    unfold PerformanceTracking.on_tracking_pause.
    by destruct (PerformanceTracking.triggerOnPause opts).
  - pose proof (PerformanceTrackingProofs.on_timeupdate_state
                  player opts currentTime (aggregator s)) as Hst.
    destruct (PerformanceTracking.on_timeupdate _ _ _ _) as [s1 calls1].
    cbn in *. subst s1. by destruct (_ <? 0).
Qed.

(** X15: while the page is not unloaded, the aggregator's [pauseCount] and
    [pauseTime] are the tracker's: every confirmation, every unpause and
    every teardown updates both plugins alike, so a snapshot reports the
    pauses the tracker has counted. *)
Theorem page_pause_counters_agree (tr : list (Z * Input)) :
  stays_loaded tr = true →
  let s := (run tr init).1 in
  PerformanceTracking.pauseCount (aggregator s)
    = PauseTracking.pauseCount (tracker s) ∧
  PerformanceTracking.pauseTime (aggregator s)
    = PauseTracking.pauseTime (tracker s).
Proof.
  assert (Hgen : ∀ s, stays_loaded tr = true →
            PerformanceTracking.pauseCount (aggregator s)
              = PauseTracking.pauseCount (tracker s) ∧
            PerformanceTracking.pauseTime (aggregator s)
              = PauseTracking.pauseTime (tracker s) →
            PerformanceTracking.pauseCount (aggregator (run tr s).1)
              = PauseTracking.pauseCount (tracker (run tr s).1) ∧
            PerformanceTracking.pauseTime (aggregator (run tr s).1)
              = PauseTracking.pauseTime (tracker (run tr s).1)).
  { induction tr as [|[now i] tr IH]; intros s Hall Hs; [done|].
    simpl in Hall. apply andb_true_iff in Hall as [Hi Hall].
    rewrite page_run_cons. cbn [fst]. apply IH; [done|].
    apply counters_agree_step; [|done]. by intros ->. }
  intros Hall. by apply Hgen.
Qed.


End Plugins.

Lemma page_pause_counters_agree_witness :
  stays_loaded
    [(0, pause PauseTracking.idle_player); (300, timeout 1%positive);
     (2000, play)] = true ∧
  PerformanceTracking.pauseTime
    (aggregator
       (run PerformanceTracking.sample_v4 1 true
          PerformanceTracking.sample_options
          [(0, pause PauseTracking.idle_player); (300, timeout 1%positive);
           (2000, play)]
          (init PerformanceTracking.sample_v4 true)).1)
  = PauseTracking.pauseTime
      (tracker
         (run PerformanceTracking.sample_v4 1 true
            PerformanceTracking.sample_options
            [(0, pause PauseTracking.idle_player); (300, timeout 1%positive);
             (2000, play)]
            (init PerformanceTracking.sample_v4 true)).1).
Proof.
  split; [reflexivity|].
  exact (proj2
    (page_pause_counters_agree PerformanceTracking.sample_v4 1 true
       PerformanceTracking.sample_options
       [(0, pause PauseTracking.idle_player); (300, timeout 1%positive);
        (2000, play)] eq_refl)).
Defined.


End PageProofs.
